(** * The quiz timer back end: the shared question record, its HTTP handlers
      and the operator's command loop.

    Two variants of the program are embedded: [Main] follows [main.go]
    (count-up mode, [POST /set-question], the text forced to END), and
    [Part000] follows the earlier, simpler variant (countdown only,
    [GET /get-question] only).  Both share the model of the Go library
    functions they call. *)

From Stdlib Require Import ZArith List String Ascii Bool Lia.
Import ListNotations.
Open Scope string_scope.
Open Scope list_scope.
Open Scope Z_scope.

(* ================================================================== *)
(** ** Go values: machine integers, strings, time *)

Module Go.

(** [int], [int64] and [time.Duration] are 64-bit two's complement. *)
Definition maxInt64 : Z := 9223372036854775807.
Definition minInt64 : Z := -9223372036854775808.

Definition int64 (z : Z) : Prop := minInt64 <= z <= maxInt64.

(** Arithmetic on [int64] wraps around silently. *)
Definition wrap64 (z : Z) : Z := (z + 2 ^ 63) mod 2 ^ 64 - 2 ^ 63.

(** [Time.Sub] saturates instead. *)
Definition sat64 (z : Z) : Z :=
  if z <? minInt64 then minInt64
  else if maxInt64 <? z then maxInt64
  else z.

(** A [time.Time] is an instant, in nanoseconds; a [time.Duration] is a
    number of nanoseconds held in an [int64]. *)
Definition Time := Z.
Definition Duration := Z.

Definition Second : Duration := 1000000000.

Definition Sub (t u : Time) : Duration := sat64 (t - u).

(** [time.Since(t)] is [time.Now().Sub(t)]; the clock reading is the
    argument [now]. *)
Definition Since (now t : Time) : Duration := Sub now t.

(** A Go string is held as the sequence of its code points: every string
    of the program is valid UTF-8 (the operator's line is built from
    runes, the request body is decoded by encoding/json). *)
Definition rune := Z.
Definition gostring := list rune.

(** The string literals of the source are ASCII. *)
Definition lit (s : string) : gostring :=
  map (fun a => Z.of_N (N_of_ascii a)) (list_ascii_of_string s).

(** [==] on strings. *)
Definition eqs (a b : gostring) : bool :=
  if list_eq_dec Z.eq_dec a b then true else false.

Definition isEmpty (s : gostring) : bool :=
  match s with [] => true | _ :: _ => false end.

(** [unicode.IsSpace]: the Latin-1 spaces and the White_Space property. *)
Definition IsSpace (r : rune) : bool :=
  ((9 <=? r) && (r <=? 13)) || (r =? 32) || (r =? 133) || (r =? 160)
  || (r =? 5760) || ((8192 <=? r) && (r <=? 8202))
  || (r =? 8232) || (r =? 8233) || (r =? 8239) || (r =? 8287)
  || (r =? 12288).

Fixpoint TrimLeft (s : gostring) : gostring :=
  match s with
  | [] => []
  | c :: s' => if IsSpace c then TrimLeft s' else s
  end.

(** [strings.TrimSpace] *)
Definition TrimSpace (s : gostring) : gostring :=
  rev (TrimLeft (rev (TrimLeft s))).

(** [strings.Split(s, sep)] for a separator of one ASCII character: one
    more piece than there are separators, empty pieces included. *)
Fixpoint Split (s : gostring) (sep : rune) : list gostring :=
  match s with
  | [] => [[]]
  | c :: s' =>
      if c =? sep then [] :: Split s' sep
      else match Split s' sep with
           | [] => [[c]]
           | piece :: pieces => (c :: piece) :: pieces
           end
  end.

(** [strings.Fields]: the maximal runs of non-space characters.  [cur]
    is the run being read, last character first. *)
Fixpoint FieldsFrom (cur : gostring) (s : gostring) : list gostring :=
  match s with
  | [] => if isEmpty cur then [] else [rev cur]
  | c :: s' =>
      if IsSpace c
      then (if isEmpty cur then FieldsFrom [] s'
            else rev cur :: FieldsFrom [] s')
      else FieldsFrom (c :: cur) s'
  end.

Definition Fields (s : gostring) : list gostring := FieldsFrom [] s.

(** [strings.Join] *)
Fixpoint Join (elems : list gostring) (sep : gostring) : gostring :=
  match elems with
  | [] => []
  | [e] => e
  | e :: rest => e ++ sep ++ Join rest sep
  end.

(** [strconv.Atoi] where [int] has 64 bits: an optional sign, then one
    or more decimal digits; [None] stands for a non-nil error (syntax or
    range). *)
Definition digit (r : rune) : option Z :=
  if (48 <=? r) && (r <=? 57) then Some (r - 48) else None.

Fixpoint digits (acc : Z) (s : gostring) : option Z :=
  match s with
  | [] => Some acc
  | c :: s' =>
      match digit c with
      | Some d => digits (acc * 10 + d) s'
      | None => None
      end
  end.

Definition Atoi (s : gostring) : option Z :=
  match s with
  | [] => None
  | c :: r =>
      let neg := c =? 45 in
      let ds := if (c =? 45) || (c =? 43) then r else s in
      match ds with
      | [] => None
      | _ :: _ =>
          match digits 0 ds with
          | None => None
          | Some n =>
              let v := if neg then - n else n in
              if (minInt64 <=? v) && (v <=? maxInt64) then Some v else None
          end
      end
  end.

(** [time.Duration(n) * time.Second] *)
Definition seconds (n : Z) : Duration := wrap64 (n * Second).

End Go.

Import Go.

(* ================================================================== *)
(** ** What the program prints and sends *)

(** The four [color.New] printers of the command loop. *)
Inductive Color := success | errorC | info | help.

(** The arguments of a [Printf].  [ArgSeconds d] is [int(d.Seconds())],
    kept as the duration it is computed from. *)
Inductive Arg :=
| ArgStr (s : gostring)
| ArgInt (n : Z)
| ArgSeconds (d : Duration)
| ArgBool (b : bool).

Inductive Effect :=
| Println (c : Color) (text : string)
| Printf (c : Color) (format : string) (args : list Arg)
| GoSendCurrentQuestion.

Definition isError (e : Effect) : bool :=
  match e with
  | Println errorC _ | Printf errorC _ _ => true
  | _ => false
  end.

(** How one command leaves the loop: the loop goes on with a state, the
    process has exited ([os.Exit]), or an index was out of range. *)
Inductive Flow (S : Type) :=
| Next (st : S)
| Exit
| Panic.
Arguments Next {S} st.
Arguments Exit {S}.
Arguments Panic {S}.

Definition StatusOK : Z := 200.
Definition StatusBadRequest : Z := 400.

(** [validTypes], the map literal of [validateQuestion] and of the [type]
    command; a missing key reads as [false]. *)
Definition validTypes (t : gostring) : bool :=
  eqs t (lit "pomoc") || eqs t (lit "rozstrel")
  || eqs t (lit "waiting") || eqs t (lit "end").

Definition helpLines (timeLine : string) : list Effect :=
  [ Println help "Available commands:";
    Println help "  question <text>          - Set new question";
    Println help timeLine;
    Println help "  type <type>              - Set type (pomoc/rozstrel/waiting/end)";
    Println help "  status                   - Show current question status";
    Println help "  logging <on/off>         - Enable/disable request logging";
    Println help "  help                     - Show this help";
    Println help "  exit                     - Exit the program" ].

(* ================================================================== *)
(** ** main.go *)

Module Main.

(** [type Question struct].  The fields [Question] and [Type] carry a
    trailing underscore: the first would clash with the record's name,
    the second is a keyword. *)
Record Question := mkQuestion {
  Question_ : gostring;
  TimeLeft : Duration;
  Type_ : gostring;
  StartTime : Time;
  CountUp : bool
}.

Definition with_Question (q : Question) (s : gostring) : Question :=
  mkQuestion s (TimeLeft q) (Type_ q) (StartTime q) (CountUp q).
Definition with_TimeLeft (q : Question) (d : Duration) : Question :=
  mkQuestion (Question_ q) d (Type_ q) (StartTime q) (CountUp q).
Definition with_Type (q : Question) (t : gostring) : Question :=
  mkQuestion (Question_ q) (TimeLeft q) t (StartTime q) (CountUp q).
Definition with_StartTime (q : Question) (t : Time) : Question :=
  mkQuestion (Question_ q) (TimeLeft q) (Type_ q) t (CountUp q).
Definition with_CountUp (q : Question) (b : bool) : Question :=
  mkQuestion (Question_ q) (TimeLeft q) (Type_ q) (StartTime q) b.

(** The package variables [question], [pause] and [loggingEnabled], and
    [lastTime], the variable of [startCLI] that outlives its loop's
    iterations. *)
Record State := mkState {
  question : Question;
  pause : bool;
  loggingEnabled : bool;
  lastTime : Z
}.

Definition set_question (st : State) (q : Question) : State :=
  mkState q (pause st) (loggingEnabled st) (lastTime st).
Definition set_pause (st : State) (b : bool) : State :=
  mkState (question st) b (loggingEnabled st) (lastTime st).
Definition set_loggingEnabled (st : State) (b : bool) : State :=
  mkState (question st) (pause st) b (lastTime st).
Definition set_lastTime (st : State) (n : Z) : State :=
  mkState (question st) (pause st) (loggingEnabled st) n.

(** [initializeQuestion], with [lastTime] at its zero value. *)
Definition initializeQuestion (now : Time) : State :=
  mkState (mkQuestion (lit "Default question") (30 * Second) (lit "pomoc")
                      now false)
          false false 0.

(** The body of a JSON response. *)
Inductive Body :=
| JSONQuestion (q : Question)
| JSONError (msg : string).

Record Response := mkResponse { code : Z; body : Body }.

(** [getQuestion]: the handler works on [q], a copy of the record; the
    state it returns is the one the package variables hold afterwards. *)
Definition getQuestion (now : Time) (st : State) : State * Response :=
  let q := question st in
  if pause st then (st, mkResponse StatusOK (JSONQuestion q))
  else
    let q :=
      if CountUp q then with_TimeLeft q (Since now (StartTime q))
      else
        let q := with_TimeLeft q (wrap64 (TimeLeft q - Since now (StartTime q))) in
        if TimeLeft q <? 0 then with_Type (with_TimeLeft q 0) (lit "end")
        else q in
    (st, mkResponse StatusOK (JSONQuestion q)).

(** [validateQuestion]: [None] is the nil error. *)
Definition validateQuestion (q : Question) : option string :=
  if TimeLeft q <? 0 then Some "time_left must be non-negative"
  else if negb (validTypes (Type_ q))
  then Some "invalid type. Must be one of: pomoc, rozstrel, waiting, end"
  else None.

(** What [c.Bind] makes of the request: an error, or the decoded body. *)
Inductive Bind :=
| BindError (err : string)
| Bound (newQuestion : Question).

(** [setQuestion] *)
Definition setQuestion (now : Time) (st : State) (req : Bind)
  : State * list Effect * Response :=
  match req with
  | BindError err => (st, [], mkResponse StatusBadRequest (JSONError err))
  | Bound newQuestion =>
      match validateQuestion newQuestion with
      | Some err => (st, [], mkResponse StatusBadRequest (JSONError err))
      | None =>
          let q := with_StartTime newQuestion now in
          let q := if eqs (Type_ q) (lit "end")
                   then with_Question q (lit "END") else q in
          (set_question st q, [GoSendCurrentQuestion],
           mkResponse StatusOK (JSONQuestion q))
      end
  end.

(** The [status] command's line about the timer. *)
Definition statusTime (now : Time) (q : Question) : Effect :=
  if CountUp q then
    let elapsedTime := Since now (StartTime q) in
    Printf info "Elapsed time: %d seconds\n" [ArgSeconds elapsedTime]
  else
    let timeLeft := wrap64 (TimeLeft q - Since now (StartTime q)) in
    let timeLeft := if timeLeft <? 0 then 0 else timeLeft in
    Printf info "Time left: %d seconds\n" [ArgSeconds timeLeft].

Definition printHelp : list Effect :=
  helpLines "  time <seconds|last|pause|countUp> - Set time left or control timer".

(** The [switch] of [startCLI] on one trimmed, non-empty command. *)
Definition exec (now : Time) (st : State) (cmd : gostring)
  : Flow State * list Effect :=
  let args := Fields cmd in
  match args with
  | [] => (Panic, [])
  | command :: _ =>
    if eqs command (lit "logging") then
      if negb (List.length args =? 2)%nat
      then (Next st, [Println errorC "Usage: logging <on/off>"])
      else
        let a := nth 1 args [] in
        if eqs a (lit "on")
        then (Next (set_loggingEnabled st true),
              [Println success "Request logging enabled"])
        else if eqs a (lit "off")
        then (Next (set_loggingEnabled st false),
              [Println success "Request logging disabled"])
        else (Next st, [Println errorC "Invalid option. Use 'on' or 'off'"])
    else if eqs command (lit "exit") then
      (Exit, [Println success "Shutting down server..."])
    else if eqs command (lit "question") then
      if (List.length args <? 2)%nat
      then (Next st, [Println errorC "Usage: question <text>"])
      else
        let q := with_Question (question st) (Join (tl args) (lit " ")) in
        let q := with_StartTime q now in
        (Next (set_question st q),
         [Printf success "Question set to: %s\n" [ArgStr (Question_ q)];
          GoSendCurrentQuestion])
    else if eqs command (lit "time") then
      if negb (List.length args =? 2)%nat
      then (Next st, [Println errorC "Usage: time <seconds|last|pause|countUp>"])
      else
        let a := nth 1 args [] in
        if eqs a (lit "last") then
          let q := with_TimeLeft (question st) (seconds (lastTime st)) in
          let q := with_StartTime q now in
          let q := with_CountUp q false in
          (Next (set_question st q),
           [Printf success "Time left set to: %d seconds\n" [ArgInt (lastTime st)]])
        else if eqs a (lit "pause") then
          let st := set_pause st (negb (pause st)) in
          if pause st
          then (Next st, [Println success "Question paused"])
          else (Next (set_question st (with_StartTime (question st) now)),
                [Println success "Question unpaused"])
        else if eqs a (lit "countUp") then
          let q := with_StartTime (question st) now in
          let q := with_CountUp q true in
          (Next (set_question st q), [Println success "Counting up"])
        else
          match Atoi a with
          | None => (Next st, [Println errorC "Time must be a non-negative integer"])
          | Some timeLeft =>
              if timeLeft <? 0
              then (Next st, [Println errorC "Time must be a non-negative integer"])
              else
                let st := set_lastTime st timeLeft in
                let q := with_TimeLeft (question st) (seconds timeLeft) in
                let q := with_StartTime q now in
                let q := with_CountUp q false in
                (Next (set_question st q),
                 [Printf success "Time left set to: %d seconds\n" [ArgInt timeLeft]])
          end
    else if eqs command (lit "type") then
      if negb (List.length args =? 2)%nat
      then (Next st, [Println errorC "Usage: type <pomoc/rozstrel/waiting/end>"])
      else
        let a := nth 1 args [] in
        if negb (validTypes a)
        then (Next st, [Println errorC "Invalid type. Must be: pomoc, rozstrel, waiting, or end"])
        else
          let q := with_Type (question st) a in
          let q := if eqs (Type_ q) (lit "end")
                   then with_Question q (lit "END") else q in
          (Next (set_question st q),
           [Printf success "Type set to: %s\n" [ArgStr a]])
    else if eqs command (lit "status") then
      (Next st,
       [Println info "Current question status:";
        Printf info "Question: %s\n" [ArgStr (Question_ (question st))];
        statusTime now (question st);
        Printf info "Type: %s\n" [ArgStr (Type_ (question st))];
        Printf info "Logging: %v\n" [ArgBool (loggingEnabled st)]])
    else if eqs command (lit "help") then
      (Next st, printHelp)
    else
      (Next st,
       [Printf errorC "Unknown command: %s\n" [ArgStr command];
        Println errorC "Type 'help' for available commands"])
  end.

(** One pass of [for _, cmd := range commands]. *)
Definition loopBody (now : Time) (st : State) (cmd : gostring)
  : Flow State * list Effect :=
  let cmd := TrimSpace cmd in
  if isEmpty cmd then (Next st, [])
  else exec now st cmd.

(** The loop over the pieces of a line; [clock i] is the clock's reading
    during pass [i]. *)
Fixpoint commandsLoop (clock : nat -> Time) (i : nat)
         (commands : list gostring) (st : State) : Flow State * list Effect :=
  match commands with
  | [] => (Next st, [])
  | cmd :: rest =>
      match loopBody (clock i) st cmd with
      | (Next st', out) =>
          let (fl, out') := commandsLoop clock (S i) rest st' in
          (fl, out ++ out')
      | (fl, out) => (fl, out)
      end
  end.

(** What [startCLI] does with one line read without error. *)
Definition startCLI_line (clock : nat -> Time) (st : State) (line : gostring)
  : Flow State * list Effect :=
  let input := TrimSpace line in
  if isEmpty input then (Next st, [])
  else commandsLoop clock 0 (Split input 59) st.

(** The events that reach the shared state, one at a time: a command of
    the operator, a GET, a POST. *)
Inductive Action :=
| ACmd (now : Time) (cmd : gostring)
| AGet (now : Time)
| APost (now : Time) (req : Bind).

Definition act (st : State) (a : Action) : Flow State :=
  match a with
  | ACmd now cmd => fst (loopBody now st cmd)
  | AGet now => Next (fst (getQuestion now st))
  | APost now req => Next (fst (fst (setQuestion now st req)))
  end.

Fixpoint run (st : State) (l : list Action) : Flow State :=
  match l with
  | [] => Next st
  | a :: l' =>
      match act st a with
      | Next st' => run st' l'
      | fl => fl
      end
  end.

(** A command that sets a duration by a number: what the [default] case
    of the [time] switch accepts. *)
Definition isNumericTime (cmd : gostring) : bool :=
  match Fields (TrimSpace cmd) with
  | [command; a] =>
      eqs command (lit "time")
      && negb (eqs a (lit "last")) && negb (eqs a (lit "pause"))
      && negb (eqs a (lit "countUp"))
      && match Atoi a with Some n => 0 <=? n | None => false end
  | _ => false
  end.

Definition isExit (cmd : gostring) : bool :=
  match Fields (TrimSpace cmd) with
  | command :: _ => eqs command (lit "exit")
  | [] => false
  end.

End Main.

(* ================================================================== *)
(** ** The simpler variant (countdown only, no POST) *)

Module Part000.

Record Question := mkQuestion {
  Question_ : gostring;
  TimeLeft : Duration;
  Type_ : gostring;
  StartTime : Time
}.

Definition with_Question (q : Question) (s : gostring) : Question :=
  mkQuestion s (TimeLeft q) (Type_ q) (StartTime q).
Definition with_TimeLeft (q : Question) (d : Duration) : Question :=
  mkQuestion (Question_ q) d (Type_ q) (StartTime q).
Definition with_Type (q : Question) (t : gostring) : Question :=
  mkQuestion (Question_ q) (TimeLeft q) t (StartTime q).
Definition with_StartTime (q : Question) (t : Time) : Question :=
  mkQuestion (Question_ q) (TimeLeft q) (Type_ q) t.

(** The package variables [question], [Pause] and [loggingEnabled], and
    [lastTime] of [main]. *)
Record State := mkState {
  question : Question;
  Pause : bool;
  loggingEnabled : bool;
  lastTime : Z
}.

Definition set_question (st : State) (q : Question) : State :=
  mkState q (Pause st) (loggingEnabled st) (lastTime st).
Definition set_Pause (st : State) (b : bool) : State :=
  mkState (question st) b (loggingEnabled st) (lastTime st).
Definition set_loggingEnabled (st : State) (b : bool) : State :=
  mkState (question st) (Pause st) b (lastTime st).
Definition set_lastTime (st : State) (n : Z) : State :=
  mkState (question st) (Pause st) (loggingEnabled st) n.

(** The state when [main] enters its loop. *)
Definition initial (now : Time) : State :=
  mkState (mkQuestion (lit "Default question") (30 * Second) (lit "pomoc") now)
          false false 0.

Record Response := mkResponse { code : Z; body : Question }.

(** [getQuestion] *)
Definition getQuestion (now : Time) (st : State) : State * Response :=
  let q := mkQuestion (Question_ (question st)) (TimeLeft (question st))
                      (Type_ (question st)) (StartTime (question st)) in
  if Pause st then (st, mkResponse StatusOK q)
  else
    let q := with_TimeLeft q
               (wrap64 (TimeLeft (question st)
                        - Since now (StartTime (question st)))) in
    let q := if TimeLeft q <? 0
             then with_Type (with_TimeLeft q 0) (lit "end") else q in
    (st, mkResponse StatusOK q).

Definition statusTime (now : Time) (q : Question) : Effect :=
  let timeLeft := wrap64 (TimeLeft q - Since now (StartTime q)) in
  let timeLeft := if timeLeft <? 0 then 0 else timeLeft in
  Printf info "Time left: %d seconds\n" [ArgSeconds timeLeft].

Definition printHelp : list Effect :=
  helpLines "  time <seconds|last|pause>- Set time left or control timer".

(** The [switch] of [main] on one trimmed, non-empty command. *)
Definition exec (now : Time) (st : State) (cmd : gostring)
  : Flow State * list Effect :=
  let args := Fields cmd in
  match args with
  | [] => (Panic, [])
  | command :: _ =>
    if eqs command (lit "logging") then
      if negb (List.length args =? 2)%nat
      then (Next st, [Println errorC "Usage: logging <on/off>"])
      else
        let a := nth 1 args [] in
        if eqs a (lit "on")
        then (Next (set_loggingEnabled st true),
              [Println success "Request logging enabled"])
        else if eqs a (lit "off")
        then (Next (set_loggingEnabled st false),
              [Println success "Request logging disabled"])
        else (Next st, [Println errorC "Invalid option. Use 'on' or 'off'"])
    else if eqs command (lit "exit") then
      (Exit, [Println success "Shutting down server..."])
    else if eqs command (lit "question") then
      if (List.length args <? 2)%nat
      then (Next st, [Println errorC "Usage: question <text>"])
      else
        let q := with_Question (question st) (Join (tl args) (lit " ")) in
        let q := with_StartTime q now in
        (Next (set_question st q),
         [Printf success "Question set to: %s\n" [ArgStr (Question_ q)]])
    else if eqs command (lit "time") then
      if negb (List.length args =? 2)%nat
      then (Next st, [Println errorC "Usage: time <seconds|last|pause>"])
      else
        let a := nth 1 args [] in
        if eqs a (lit "last") then
          let q := with_TimeLeft (question st) (seconds (lastTime st)) in
          let q := with_StartTime q now in
          (Next (set_question st q),
           [Printf success "Time left set to: %d seconds\n" [ArgInt (lastTime st)]])
        else if eqs a (lit "pause") then
          let st := set_Pause st (negb (Pause st)) in
          if Pause st
          then (Next st, [Println success "Question paused"])
          else
            let q := with_StartTime (question st) now in
            let q := with_TimeLeft q (seconds (lastTime st)) in
            (Next (set_question st q), [Println success "Question unpaused"])
        else
          match Atoi a with
          | None => (Next st, [Println errorC "Time must be a positive number"])
          | Some timeLeft =>
              if timeLeft <? 0
              then (Next st, [Println errorC "Time must be a positive number"])
              else
                let st := set_lastTime st timeLeft in
                let q := with_TimeLeft (question st) (seconds timeLeft) in
                let q := with_StartTime q now in
                (Next (set_question st q),
                 [Printf success "Time left set to: %d seconds\n" [ArgInt timeLeft]])
          end
    else if eqs command (lit "type") then
      if negb (List.length args =? 2)%nat
      then (Next st, [Println errorC "Usage: type <pomoc/rozstrel/waiting/end>"])
      else
        let a := nth 1 args [] in
        if negb (validTypes a)
        then (Next st, [Println errorC "Invalid type. Must be: pomoc, rozstrel, waiting, or end"])
        else
          (Next (set_question st (with_Type (question st) a)),
           [Printf success "Type set to: %s\n" [ArgStr a]])
    else if eqs command (lit "status") then
      (Next st,
       [Println info "Current question status:";
        Printf info "Question: %s\n" [ArgStr (Question_ (question st))];
        statusTime now (question st);
        Printf info "Type: %s\n" [ArgStr (Type_ (question st))];
        Printf info "Logging: %v\n" [ArgBool (loggingEnabled st)]])
    else if eqs command (lit "help") then
      (Next st, printHelp)
    else
      (Next st,
       [Printf errorC "Unknown command: %s\n" [ArgStr command];
        Println errorC "Type 'help' for available commands"])
  end.

(** One pass of [for _, cmd := range commands]. *)
Definition loopBody (now : Time) (st : State) (cmd : gostring)
  : Flow State * list Effect :=
  let cmd := TrimSpace cmd in
  if isEmpty cmd then (Next st, [])
  else exec now st cmd.

End Part000.

(* ================================================================== *)
(** ** The states and commands the properties speak of *)

(** A valid state in countdown mode: the timer runs down, is not paused,
    and the record passes the checks of the write paths. *)
Definition validCountdown (st : Main.State) : Prop :=
  Main.pause st = false
  /\ Main.CountUp (Main.question st) = false
  /\ 0 <= Main.TimeLeft (Main.question st) <= maxInt64
  /\ validTypes (Main.Type_ (Main.question st)) = true.

Definition validCountdown000 (st : Part000.State) : Prop :=
  Part000.Pause st = false
  /\ 0 <= Part000.TimeLeft (Part000.question st) <= maxInt64
  /\ validTypes (Part000.Type_ (Part000.question st)) = true.

(** The largest number of seconds whose nanoseconds fit a [Duration]. *)
Definition maxSeconds : Z := 9223372036.

(** The pieces of a line with the number of their pass through the loop. *)
Fixpoint indexed {A : Type} (i : nat) (l : list A) : list (nat * A) :=
  match l with
  | [] => []
  | x :: l' => (i, x) :: indexed (S i) l'
  end.

(** The commands of a line as the specification words them: split on the
    semicolon, trim each piece, skip the empty ones. *)
Definition specCommands (line : gostring) : list (nat * gostring) :=
  filter (fun p => negb (isEmpty (snd p)))
         (indexed 0 (map TrimSpace (Split line 59))).

(** The commands applied one after the other, each at its clock reading. *)
Fixpoint specRun (clock : nat -> Time) (cmds : list (nat * gostring))
         (st : Main.State) : Flow Main.State * list Effect :=
  match cmds with
  | [] => (Next st, [])
  | (i, cmd) :: rest =>
      match Main.exec (clock i) st cmd with
      | (Next st', out) =>
          let (fl, out') := specRun clock rest st' in (fl, out ++ out')
      | (fl, out) => (fl, out)
      end
  end.

Definition isSubcommand (a : gostring) : bool :=
  eqs a (lit "last") || eqs a (lit "pause") || eqs a (lit "countUp").

(** The argument of [time] that is neither a sub-command nor a number the
    code accepts. *)
Definition badTimeArg (a : gostring) : bool :=
  negb (isSubcommand a)
  && match Atoi a with Some n => n <? 0 | None => true end.

(** The commands the checks of [startCLI] turn down, in the order of its
    [switch]: [logging], [time] and [type] without exactly one argument or
    with one that is not known, [question] without a word, and an unknown
    leading word.  [noArgs] says what becomes of words after [exit],
    [status] and [help]. *)
Definition turnedDown (noArgs : list gostring -> bool) (cmd : gostring) : bool :=
  match Fields cmd with
  | [] => false
  | command :: args =>
      if eqs command (lit "logging") then
        match args with
        | [a] => negb (eqs a (lit "on") || eqs a (lit "off"))
        | _ => true
        end
      else if eqs command (lit "exit") then noArgs args
      else if eqs command (lit "question") then
        match args with [] => true | _ :: _ => false end
      else if eqs command (lit "time") then
        match args with [a] => badTimeArg a | _ => true end
      else if eqs command (lit "type") then
        match args with [a] => negb (validTypes a) | _ => true end
      else if eqs command (lit "status") then noArgs args
      else if eqs command (lit "help") then noArgs args
      else true
  end.

(** As the table of commands has it, [exit], [status] and [help] take no
    argument: a word after them is a wrong arity. *)
Definition specMalformed : gostring -> bool :=
  turnedDown (fun args => match args with [] => false | _ :: _ => true end).

(** [startCLI] has no arity check on these three. *)
Definition malformed : gostring -> bool := turnedDown (fun _ => false).

(** What an error report is: something printed, all of it in red. *)
Definition errorReport (out : list Effect) : Prop :=
  out <> [] /\ forallb isError out = true.

(** A command of [exit], [status] or [help] followed by more words. *)
Definition extraWords (word : string) (cmd : gostring) : Prop :=
  exists a args, Fields cmd = lit word :: a :: args.

(** An event between two commands that neither sets a duration by a
    number nor ends the process. *)
Definition quiet (a : Main.Action) : Prop :=
  match a with
  | Main.ACmd _ cmd => Main.isNumericTime cmd = false /\ Main.isExit cmd = false
  | _ => True
  end.

(** The first word of a piece of a line, [args[0]] of the loop. *)
Definition firstWord (cmd : gostring) : gostring :=
  hd [] (Fields (TrimSpace cmd)).

(** A word: a string that is not empty and has no space in it. *)
Definition isWord (w : gostring) : bool :=
  negb (isEmpty w) && forallb (fun c => negb (IsSpace c)) w.

(** The pieces of a line as events, each at the clock reading of its pass
    through the loop. *)
Definition lineActions (clock : nat -> Time) (line : gostring)
  : list Main.Action :=
  map (fun p => Main.ACmd (clock (fst p)) (snd p))
      (indexed 0 (Split (TrimSpace line) 59)).


(** What [rl.Readline] gives the loop of [startCLI]: a line, an interrupt
    with what was typed so far, the end of the input, or another error. *)
Inductive Read :=
| ReadLine (line : gostring)
| ReadInterrupt (line : gostring)
| ReadEOF
| ReadError (err : string).

(** The outer loop of [startCLI] over what is read; [clock n] is the clock
    during the line read in the [n]-th place.  [Next st] is the state with
    which the loop is left ([break]) or waits for more input. *)
Fixpoint startCLI (clock : nat -> nat -> Time) (n : nat) (reads : list Read)
         (st : Main.State) : Flow Main.State * list Effect :=
  match reads with
  | [] => (Next st, [])
  | ReadInterrupt line :: rest =>
      if (List.length line =? 0)%nat then (Next st, [])
      else startCLI clock (S n) rest st
  | ReadEOF :: _ => (Next st, [])
  | ReadError err :: rest =>
      let (fl, out) := startCLI clock (S n) rest st in
      (fl, Printf errorC "Error reading input: %v\n" [ArgStr (lit err)] :: out)
  | ReadLine line :: rest =>
      match Main.startCLI_line (clock n) st line with
      | (Next st', out) =>
          let (fl, out') := startCLI clock (S n) rest st' in (fl, out ++ out')
      | (fl, out) => (fl, out)
      end
  end.

(** The events of a session of lines, line after line. *)
Fixpoint sessionActions (clock : nat -> nat -> Time) (n : nat)
         (lines : list gostring) : list Main.Action :=
  match lines with
  | [] => []
  | line :: rest =>
      lineActions (clock n) line ++ sessionActions clock (S n) rest
  end.

(** An event that asks for no duration beyond the seconds a [Duration]
    holds: a command whose one argument reads as a number has it at most
    [maxSeconds]. *)
Definition modest (a : Main.Action) : Prop :=
  match a with
  | Main.ACmd _ cmd =>
      match Fields (TrimSpace cmd) with
      | [_; x] =>
          match Atoi x with Some n => n <= maxSeconds | None => True end
      | _ => True
      end
  | _ => True
  end.

(* ================================================================== *)
(** ** Machine integers *)

Lemma wrap64_id (z : Z) : int64 z -> wrap64 z = z.
Proof.
  unfold int64, minInt64, maxInt64, wrap64. intros H.
  change (2 ^ 63) with 9223372036854775808.
  change (2 ^ 64) with 18446744073709551616.
  rewrite Z.mod_small; lia.
Qed.

Lemma wrap64_int64 (z : Z) : int64 (wrap64 z).
Proof.
  unfold int64, minInt64, maxInt64, wrap64.
  change (2 ^ 63) with 9223372036854775808.
  change (2 ^ 64) with 18446744073709551616.
  pose proof (Z.mod_pos_bound (z + 9223372036854775808) 18446744073709551616).
  lia.
Qed.

Lemma sat64_int64 (z : Z) : int64 (sat64 z).
Proof.
  unfold int64, sat64, minInt64, maxInt64.
  destruct (z <? -9223372036854775808) eqn:E1;
    [lia | destruct (9223372036854775807 <? z) eqn:E2]; lia.
Qed.

Lemma sat64_id (z : Z) : int64 z -> sat64 z = z.
Proof.
  unfold int64, sat64, minInt64, maxInt64. intros H.
  destruct (z <? -9223372036854775808) eqn:E1;
    [lia | destruct (9223372036854775807 <? z) eqn:E2]; lia.
Qed.

Lemma sat64_mono (a b : Z) : a <= b -> sat64 a <= sat64 b.
Proof.
  unfold sat64, minInt64, maxInt64. intros H.
  destruct (a <? -9223372036854775808) eqn:A1;
    destruct (b <? -9223372036854775808) eqn:B1;
    destruct (9223372036854775807 <? a) eqn:A2;
    destruct (9223372036854775807 <? b) eqn:B2; lia.
Qed.

Lemma seconds_exact (n : Z) : 0 <= n <= maxSeconds -> seconds n = n * Second.
Proof.
  unfold maxSeconds, seconds, Second. intros H.
  apply wrap64_id. unfold int64, minInt64, maxInt64. lia.
Qed.

(** The clamp of the read path: whatever the subtraction wraps to, what is
    kept is not negative. *)
Lemma clamp_nonneg (z : Z) : 0 <= (if z <? 0 then 0 else z).
Proof. destruct (z <? 0) eqn:E; lia. Qed.

(** A budget that is not negative and an elapsed time above it: the
    remaining time is negative and nothing wraps. *)
Lemma remaining_negative (budget elapsed : Z) :
  0 <= budget -> budget < elapsed -> int64 elapsed ->
  (wrap64 (budget - elapsed) <? 0) = true.
Proof.
  intros Hb Hlt He. rewrite wrap64_id.
  - apply Z.ltb_lt. lia.
  - unfold int64, minInt64, maxInt64 in *. lia.
Qed.

(** Past the end of a budget below the largest duration, the elapsed time
    [time.Since] reports is above the budget. *)
Lemma Since_past (now start budget : Z) :
  0 <= budget < maxInt64 -> start + budget < now ->
  budget < Since now start /\ int64 (Since now start).
Proof.
  intros Hb Hn. unfold Since, Sub. split; [| apply sat64_int64].
  assert (H : sat64 (budget + 1) <= sat64 (now - start))
    by (apply sat64_mono; lia).
  rewrite sat64_id in H; [lia |].
  unfold int64, minInt64, maxInt64 in *. lia.
Qed.

Lemma Since_at_end (start budget : Z) :
  0 <= budget <= maxInt64 -> Since (start + budget) start = budget.
Proof.
  intros H. unfold Since, Sub.
  replace (start + budget - start) with budget by lia.
  apply sat64_id. unfold int64, minInt64, maxInt64 in *. lia.
Qed.

(* ================================================================== *)
(** ** Strings *)

Lemma eqs_true (a b : gostring) : eqs a b = true -> a = b.
Proof. unfold eqs. destruct (list_eq_dec Z.eq_dec a b); congruence. Qed.

(** Comparisons of two literals are settled by evaluation. *)
Ltac eval_eqs :=
  repeat match goal with
    | |- context [eqs (lit ?a) (lit ?b)] =>
        let v := eval vm_compute in (eqs (lit a) (lit b)) in
        change (eqs (lit a) (lit b)) with v
    | |- context [validTypes (lit ?a)] =>
        let v := eval vm_compute in (validTypes (lit a)) in
        change (validTypes (lit a)) with v
    end.

Lemma TrimLeft_head (s : gostring) (c : rune) (r : gostring) :
  TrimLeft s = c :: r -> IsSpace c = false.
Proof.
  induction s as [| x s IH]; simpl; [discriminate |].
  destruct (IsSpace x) eqn:E; [exact IH |].
  intros H. injection H as -> _. exact E.
Qed.

Lemma TrimLeft_snoc (s : gostring) (c : rune) :
  TrimLeft (s ++ [c])
  = match TrimLeft s with
    | [] => if IsSpace c then [] else [c]
    | _ :: _ => TrimLeft s ++ [c]
    end.
Proof.
  induction s as [| x s IH]; simpl.
  - destruct (IsSpace c); reflexivity.
  - destruct (IsSpace x); [exact IH | reflexivity].
Qed.

(** Trimming on the right, the second half of [TrimSpace]. *)
Lemma TrimRight_snoc (s : gostring) (c : rune) :
  rev (TrimLeft (rev (s ++ [c])))
  = if IsSpace c then rev (TrimLeft (rev s)) else s ++ [c].
Proof.
  rewrite rev_app_distr. simpl.
  destruct (IsSpace c); [reflexivity |].
  simpl. rewrite rev_involutive. reflexivity.
Qed.

Lemma TrimSpace_cons_space (c : rune) (s : gostring) :
  IsSpace c = true -> TrimSpace (c :: s) = TrimSpace s.
Proof. intros H. unfold TrimSpace. simpl. rewrite H. reflexivity. Qed.

Lemma TrimSpace_snoc_space (s : gostring) (c : rune) :
  IsSpace c = true -> TrimSpace (s ++ [c]) = TrimSpace s.
Proof.
  intros H. unfold TrimSpace. rewrite TrimLeft_snoc.
  destruct (TrimLeft s) as [| x t] eqn:E.
  - rewrite H. reflexivity.
  - rewrite TrimRight_snoc, H. reflexivity.
Qed.

(** A trimmed string that is not empty starts with a character that is
    not a space. *)
Lemma TrimSpace_head (s : gostring) (c : rune) (r : gostring) :
  TrimSpace s = c :: r -> IsSpace c = false.
Proof.
  unfold TrimSpace.
  destruct (TrimLeft s) as [| x t] eqn:E; [discriminate |].
  pose proof (TrimLeft_head _ _ _ E) as Hx.
  destruct (rev t) as [| y u] eqn:Er.
  - assert (t = []) by (rewrite <- (rev_involutive t), Er; reflexivity).
    subst t. simpl. rewrite Hx. simpl. intros H. injection H as <- _. exact Hx.
  - simpl. rewrite Er.
    change ((y :: u) ++ [x]) with (y :: (u ++ [x])).
    intros H.
    assert (Hl : exists v, TrimLeft (y :: u ++ [x]) = v ++ [x]).
    { change (y :: u ++ [x]) with ((y :: u) ++ [x]).
      rewrite TrimLeft_snoc, Hx.
      destruct (TrimLeft (y :: u)) as [| z w];
        [exists [] | exists (z :: w)]; reflexivity. }
    destruct Hl as [v Hv]. rewrite Hv, rev_app_distr in H. simpl in H.
    injection H as <- _. exact Hx.
Qed.

Lemma FieldsFrom_cur (cur s : gostring) :
  cur <> [] -> FieldsFrom cur s <> [].
Proof.
  revert cur. induction s as [| c s IH]; intros cur Hc; simpl.
  - destruct cur; [congruence | discriminate].
  - destruct (IsSpace c).
    + destruct cur; [congruence | discriminate].
    + apply IH. discriminate.
Qed.

(** [args[0]] is in range: a trimmed command that is not empty has a
    first field. *)
Lemma Fields_TrimSpace (s : gostring) :
  isEmpty (TrimSpace s) = false -> Fields (TrimSpace s) <> [].
Proof.
  destruct (TrimSpace s) as [| c r] eqn:E; [discriminate |]. intros _.
  unfold Fields. simpl. rewrite (TrimSpace_head _ _ _ E).
  apply FieldsFrom_cur. discriminate.
Qed.

Lemma Fields_nonempty (s : gostring) : Fields s <> [] -> isEmpty s = false.
Proof. destruct s; [intros H; elim H; reflexivity | reflexivity]. Qed.

Section SplitTrim.

Variable sep : rune.
Hypothesis sep_not_space : IsSpace sep = false.

Lemma space_not_sep (c : rune) : IsSpace c = true -> (c =? sep) = false.
Proof.
  intros H. destruct (c =? sep) eqn:E; [| reflexivity].
  apply Z.eqb_eq in E. subst c. congruence.
Qed.

Lemma Split_not_nil (s : gostring) : Split s sep <> [].
Proof.
  destruct s as [| c s]; simpl; [discriminate |].
  destruct (c =? sep); [discriminate |].
  destruct (Split s sep); discriminate.
Qed.

(** Spaces in front of a line are spaces in front of its first piece. *)
Lemma Split_TrimLeft (s : gostring) :
  map TrimSpace (Split (TrimLeft s) sep) = map TrimSpace (Split s sep).
Proof.
  induction s as [| c s IH]; [reflexivity |].
  simpl. destruct (IsSpace c) eqn:E; [| reflexivity].
  rewrite (space_not_sep _ E), IH.
  pose proof (Split_not_nil s) as Hn.
  destruct (Split s sep) as [| p ps]; [congruence |].
  simpl. rewrite (TrimSpace_cons_space _ _ E). reflexivity.
Qed.

(** A character that is not the separator joins the last piece. *)
Lemma Split_snoc (s : gostring) (c : rune) :
  (c =? sep) = false ->
  Split (s ++ [c]) sep
  = removelast (Split s sep) ++ [last (Split s sep) [] ++ [c]].
Proof.
  intros Hc. induction s as [| x s IH]; simpl.
  - rewrite Hc. reflexivity.
  - pose proof (Split_not_nil s) as Hn.
    destruct (x =? sep).
    + rewrite IH.
      destruct (Split s sep) as [| p ps]; [congruence | reflexivity].
    + rewrite IH.
      destruct (Split s sep) as [| p ps]; [congruence |].
      destruct ps as [| p' ps']; reflexivity.
Qed.

(** Spaces at the end of a line are spaces at the end of its last
    piece. *)
Lemma Split_TrimRight (s : gostring) :
  map TrimSpace (Split (rev (TrimLeft (rev s))) sep)
  = map TrimSpace (Split s sep).
Proof.
  induction s as [| c s IH] using rev_ind; [reflexivity |].
  rewrite TrimRight_snoc.
  destruct (IsSpace c) eqn:E; [| reflexivity].
  rewrite IH, (Split_snoc _ _ (space_not_sep _ E)).
  pose proof (Split_not_nil s) as Hn.
  rewrite (app_removelast_last [] Hn) at 1.
  rewrite !map_app. simpl.
  rewrite (TrimSpace_snoc_space _ _ E). reflexivity.
Qed.

(** Trimming the line before splitting it changes no trimmed piece. *)
Lemma Split_TrimSpace (s : gostring) :
  map TrimSpace (Split (TrimSpace s) sep) = map TrimSpace (Split s sep).
Proof.
  unfold TrimSpace at 2. rewrite Split_TrimRight. apply Split_TrimLeft.
Qed.

End SplitTrim.

(* ================================================================== *)
(** ** The read path *)

(** What [getQuestion] answers in countdown mode, in terms of the elapsed
    time. *)
Lemma getQuestion_countdown (now : Time) (st : Main.State) :
  Main.pause st = false -> Main.CountUp (Main.question st) = false ->
  Main.getQuestion now st
  = (st, Main.mkResponse StatusOK (Main.JSONQuestion
       (let q := Main.question st in
        let left := wrap64 (Main.TimeLeft q - Since now (Main.StartTime q)) in
        if left <? 0 then Main.with_Type (Main.with_TimeLeft q 0) (lit "end")
        else Main.with_TimeLeft q left))).
Proof.
  intros Hp Hc. unfold Main.getQuestion. rewrite Hp, Hc. simpl.
  destruct (wrap64 _ <? 0); reflexivity.
Qed.

Lemma getQuestion000_running (now : Time) (st : Part000.State) :
  Part000.Pause st = false ->
  Part000.getQuestion now st
  = (st, Part000.mkResponse StatusOK
       (let q := Part000.question st in
        let left := wrap64 (Part000.TimeLeft q - Since now (Part000.StartTime q)) in
        if left <? 0 then Part000.with_Type (Part000.with_TimeLeft q 0) (lit "end")
        else Part000.with_TimeLeft q left)).
Proof.
  intros Hp. unfold Part000.getQuestion. rewrite Hp. simpl.
  destruct (wrap64 _ <? 0); reflexivity.
Qed.

(** C1, as amended.  In a valid countdown state, read exactly at
    [startedAt + durationBudget], the answer has [time_left = 0] and the
    type as it is stored: the comparison of the read path is strict.  The
    type [end] is answered at every later instant, for a budget below the
    largest duration.  Both variants. *)
Theorem C1_countdown_at_budget :
  (forall st : Main.State,
      validCountdown st ->
      let q := Main.question st in
      snd (Main.getQuestion (Main.StartTime q + Main.TimeLeft q) st)
      = Main.mkResponse StatusOK (Main.JSONQuestion (Main.with_TimeLeft q 0))
      /\ (Main.TimeLeft q < maxInt64 ->
          forall now, Main.StartTime q + Main.TimeLeft q < now ->
          snd (Main.getQuestion now st)
          = Main.mkResponse StatusOK (Main.JSONQuestion
              (Main.with_Type (Main.with_TimeLeft q 0) (lit "end")))))
  /\
  (forall st0 : Part000.State,
      validCountdown000 st0 ->
      let q := Part000.question st0 in
      snd (Part000.getQuestion (Part000.StartTime q + Part000.TimeLeft q) st0)
      = Part000.mkResponse StatusOK (Part000.with_TimeLeft q 0)
      /\ (Part000.TimeLeft q < maxInt64 ->
          forall now, Part000.StartTime q + Part000.TimeLeft q < now ->
          snd (Part000.getQuestion now st0)
          = Part000.mkResponse StatusOK
              (Part000.with_Type (Part000.with_TimeLeft q 0) (lit "end")))).
Proof.
  split.
  - intros st (Hp & Hc & Hb & _). cbv zeta. split.
    + rewrite (getQuestion_countdown _ _ Hp Hc). cbv zeta.
      rewrite (Since_at_end _ _ Hb), Z.sub_diag. reflexivity.
    + intros Hm now Hn. rewrite (getQuestion_countdown _ _ Hp Hc). cbv zeta.
      destruct (Since_past now _ _ (conj (proj1 Hb) Hm) Hn) as [Hlt Hi].
      rewrite (remaining_negative _ _ (proj1 Hb) Hlt Hi). reflexivity.
  - intros st0 (Hp0 & Hb0 & _). cbv zeta. split.
    + rewrite (getQuestion000_running _ _ Hp0). cbv zeta.
      rewrite (Since_at_end _ _ Hb0), Z.sub_diag. reflexivity.
    + intros Hm now Hn. rewrite (getQuestion000_running _ _ Hp0). cbv zeta.
      destruct (Since_past now _ _ (conj (proj1 Hb0) Hm) Hn) as [Hlt Hi].
      rewrite (remaining_negative _ _ (proj1 Hb0) Hlt Hi). reflexivity.
Qed.

Lemma validCountdown_initial : validCountdown (Main.initializeQuestion 0).
Proof. unfold validCountdown. simpl. repeat split; try reflexivity; discriminate. Qed.

Lemma validCountdown000_initial : validCountdown000 (Part000.initial 0).
Proof. unfold validCountdown000. simpl. repeat split; try reflexivity; discriminate. Qed.

Lemma C1_countdown_at_budget_witness :
  validCountdown (Main.initializeQuestion 0)
  /\ snd (Main.getQuestion (0 + 30 * Second) (Main.initializeQuestion 0))
     = Main.mkResponse StatusOK (Main.JSONQuestion
         (Main.with_TimeLeft (Main.question (Main.initializeQuestion 0)) 0)).
Proof.
  split; [exact validCountdown_initial |].
  exact (proj1 (proj1 C1_countdown_at_budget (Main.initializeQuestion 0)
                  validCountdown_initial)).
Defined.

(** C1 as it is stated fails: thirty seconds after the default question
    started, with its budget of thirty seconds, the answer has
    [time_left = 0] and a type that is not [end] (it is [pomoc]). *)
Lemma C1_counterexample :
  validCountdown (Main.initializeQuestion 0)
  /\ exists q',
       snd (Main.getQuestion (0 + 30 * Second) (Main.initializeQuestion 0))
       = Main.mkResponse StatusOK (Main.JSONQuestion q')
       /\ Main.TimeLeft q' = 0 /\ Main.Type_ q' <> lit "end".
Proof.
  split; [exact validCountdown_initial |].
  eexists. split; [reflexivity |]. split; [reflexivity | discriminate].
Qed.

(** C5.  While the program is paused, the answer of the read path does not
    depend on the clock: at any two instants it is the same answer, the
    stored record as it is.  Both variants. *)
Theorem C5_paused_read_ignores_clock :
  (forall (st : Main.State) (now1 now2 : Time),
      Main.pause st = true ->
      Main.getQuestion now1 st = Main.getQuestion now2 st
      /\ Main.getQuestion now1 st
         = (st, Main.mkResponse StatusOK (Main.JSONQuestion (Main.question st))))
  /\
  (forall (st0 : Part000.State) (now1 now2 : Time),
      Part000.Pause st0 = true ->
      Part000.getQuestion now1 st0 = Part000.getQuestion now2 st0
      /\ Part000.getQuestion now1 st0
         = (st0, Part000.mkResponse StatusOK (Part000.question st0))).
Proof.
  split.
  - intros st now1 now2 Hp. unfold Main.getQuestion. rewrite Hp.
    split; reflexivity.
  - intros st0 now1 now2 Hp0. unfold Part000.getQuestion. rewrite Hp0.
    destruct st0 as [[t d ty s] p l n]. split; reflexivity.
Qed.

Lemma C5_paused_read_ignores_clock_witness :
  Main.getQuestion 5 (Main.set_pause (Main.initializeQuestion 0) true)
  = Main.getQuestion (40 * Second) (Main.set_pause (Main.initializeQuestion 0) true).
Proof.
  exact (proj1 (proj1 C5_paused_read_ignores_clock
                  (Main.set_pause (Main.initializeQuestion 0) true)
                  5 (40 * Second) eq_refl)).
Defined.

(** A piece with a field is not empty once trimmed: it reaches the
    [switch]. *)
Lemma loopBody_exec (now : Time) (st : Main.State) (cmd : gostring)
      (command : gostring) (args : list gostring) :
  Fields (TrimSpace cmd) = command :: args ->
  Main.loopBody now st cmd = Main.exec now st (TrimSpace cmd).
Proof.
  intros H. unfold Main.loopBody. rewrite Fields_nonempty; [reflexivity |].
  rewrite H. discriminate.
Qed.

Lemma loopBody000_exec (now : Time) (st : Part000.State) (cmd : gostring)
      (command : gostring) (args : list gostring) :
  Fields (TrimSpace cmd) = command :: args ->
  Part000.loopBody now st cmd = Part000.exec now st (TrimSpace cmd).
Proof.
  intros H. unfold Part000.loopBody. rewrite Fields_nonempty; [reflexivity |].
  rewrite H. discriminate.
Qed.

(** The [status] command prints its five lines and keeps the state,
    whatever follows the word. *)
Lemma exec_status (now : Time) (st : Main.State) (cmd : gostring)
      (rest : list gostring) :
  Fields cmd = lit "status" :: rest ->
  Main.exec now st cmd
  = (Next st,
     [Println info "Current question status:";
      Printf info "Question: %s\n" [ArgStr (Main.Question_ (Main.question st))];
      Main.statusTime now (Main.question st);
      Printf info "Type: %s\n" [ArgStr (Main.Type_ (Main.question st))];
      Printf info "Logging: %v\n" [ArgBool (Main.loggingEnabled st)]]).
Proof.
  intros H. unfold Main.exec. rewrite H. eval_eqs. reflexivity.
Qed.

Lemma exec000_status (now : Time) (st : Part000.State) (cmd : gostring)
      (rest : list gostring) :
  Fields cmd = lit "status" :: rest ->
  Part000.exec now st cmd
  = (Next st,
     [Println info "Current question status:";
      Printf info "Question: %s\n" [ArgStr (Part000.Question_ (Part000.question st))];
      Part000.statusTime now (Part000.question st);
      Printf info "Type: %s\n" [ArgStr (Part000.Type_ (Part000.question st))];
      Printf info "Logging: %v\n" [ArgBool (Part000.loggingEnabled st)]]).
Proof.
  intros H. unfold Part000.exec. rewrite H. eval_eqs. reflexivity.
Qed.

(** C6.  In countdown mode, whatever the clock reads, the time left that
    [GET /get-question] answers and the one the [status] command prints
    are not negative: a remaining time below zero is replaced by zero.
    Both variants; the [status] command does not look at the pause. *)
Theorem C6_time_left_not_negative :
  (forall (st : Main.State) (now : Time),
      Main.CountUp (Main.question st) = false -> Main.pause st = false ->
      exists q', snd (Main.getQuestion now st)
                 = Main.mkResponse StatusOK (Main.JSONQuestion q')
                 /\ 0 <= Main.TimeLeft q')
  /\ (forall (st : Main.State) (now : Time) (cmd : gostring) rest,
         Main.CountUp (Main.question st) = false ->
         Fields (TrimSpace cmd) = lit "status" :: rest ->
         exists d, In (Printf info "Time left: %d seconds\n" [ArgSeconds d])
                      (snd (Main.loopBody now st cmd))
                   /\ 0 <= d)
  /\ (forall (st0 : Part000.State) (now : Time),
         Part000.Pause st0 = false ->
         exists q', snd (Part000.getQuestion now st0)
                    = Part000.mkResponse StatusOK q'
                    /\ 0 <= Part000.TimeLeft q')
  /\ (forall (st0 : Part000.State) (now : Time) (cmd : gostring) rest,
         Fields (TrimSpace cmd) = lit "status" :: rest ->
         exists d, In (Printf info "Time left: %d seconds\n" [ArgSeconds d])
                      (snd (Part000.loopBody now st0 cmd))
                   /\ 0 <= d).
Proof.
  repeat apply conj.
  - intros st now Hc Hp. rewrite (getQuestion_countdown _ _ Hp Hc). cbv zeta.
    eexists. split; [reflexivity |].
    destruct (wrap64 _ <? 0) eqn:E; simpl; [lia | apply Z.ltb_ge in E; lia].
  - intros st now cmd rest Hc Hf.
    rewrite (loopBody_exec _ _ _ _ _ Hf), (exec_status _ _ _ _ Hf).
    unfold Main.statusTime. rewrite Hc.
    eexists. split; [simpl; right; right; left; reflexivity |].
    apply clamp_nonneg.
  - intros st0 now Hp0. rewrite (getQuestion000_running _ _ Hp0). cbv zeta.
    eexists. split; [reflexivity |].
    destruct (wrap64 _ <? 0) eqn:E; simpl; [lia | apply Z.ltb_ge in E; lia].
  - intros st0 now cmd rest Hf.
    rewrite (loopBody000_exec _ _ _ _ _ Hf), (exec000_status _ _ _ _ Hf).
    unfold Part000.statusTime.
    eexists. split; [simpl; right; right; left; reflexivity |].
    apply clamp_nonneg.
Qed.

Lemma C6_time_left_not_negative_witness :
  exists q', snd (Main.getQuestion (31 * Second) (Main.initializeQuestion 0))
             = Main.mkResponse StatusOK (Main.JSONQuestion q')
             /\ 0 <= Main.TimeLeft q'.
Proof.
  exact (proj1 C6_time_left_not_negative (Main.initializeQuestion 0)
           (31 * Second) eq_refl eq_refl).
Defined.

(** C4.  [GET /get-question] leaves the package variables as they are,
    however many times and whenever it is called; once the elapsed time is
    above the budget of a running countdown, the answer has
    [time_left = 0] and the type [end], and the stored record still has
    its own type and budget.  Both variants. *)
Theorem C4_get_never_mutates (st : Main.State) (st0 : Part000.State) :
  (forall nows, fold_left (fun s t => fst (Main.getQuestion t s)) nows st = st)
  /\ (forall nows,
         fold_left (fun s t => fst (Part000.getQuestion t s)) nows st0 = st0)
  /\ (forall now,
         Main.pause st = false -> Main.CountUp (Main.question st) = false ->
         0 <= Main.TimeLeft (Main.question st)
              < Since now (Main.StartTime (Main.question st)) ->
         Main.getQuestion now st
         = (st, Main.mkResponse StatusOK (Main.JSONQuestion
              (Main.with_Type (Main.with_TimeLeft (Main.question st) 0)
                              (lit "end")))))
  /\ (forall now,
         Part000.Pause st0 = false ->
         0 <= Part000.TimeLeft (Part000.question st0)
              < Since now (Part000.StartTime (Part000.question st0)) ->
         Part000.getQuestion now st0
         = (st0, Part000.mkResponse StatusOK
              (Part000.with_Type (Part000.with_TimeLeft (Part000.question st0) 0)
                                 (lit "end")))).
Proof.
  repeat split.
  - intros nows. induction nows as [| t nows IH]; [reflexivity |].
    simpl. replace (fst (Main.getQuestion t st)) with st; [exact IH |].
    unfold Main.getQuestion. destruct (Main.pause st); reflexivity.
  - intros nows. induction nows as [| t nows IH]; [reflexivity |].
    simpl. replace (fst (Part000.getQuestion t st0)) with st0; [exact IH |].
    unfold Part000.getQuestion. destruct (Part000.Pause st0); reflexivity.
  - intros now Hp Hc [Hb Hlt]. rewrite (getQuestion_countdown _ _ Hp Hc).
    cbv zeta. rewrite (remaining_negative _ _ Hb Hlt (sat64_int64 _)).
    reflexivity.
  - intros now Hp [Hb Hlt]. rewrite (getQuestion000_running _ _ Hp).
    cbv zeta. rewrite (remaining_negative _ _ Hb Hlt (sat64_int64 _)).
    reflexivity.
Qed.

Lemma C4_get_never_mutates_witness :
  Main.getQuestion (31 * Second) (Main.initializeQuestion 0)
  = (Main.initializeQuestion 0,
     Main.mkResponse StatusOK (Main.JSONQuestion
       (Main.mkQuestion (lit "Default question") 0 (lit "end") 0 false))).
Proof.
  apply (proj1 (proj2 (proj2 (C4_get_never_mutates
                                (Main.initializeQuestion 0) (Part000.initial 0))))
           (31 * Second)).
  - reflexivity.
  - reflexivity.
  - vm_compute. split; [discriminate | reflexivity].
Defined.

(* ================================================================== *)
(** ** POST /set-question *)

(** C3.  A body with a negative [time_left] or with a type that is not one
    of the four is answered with status 400 and an error, and the package
    variables are the ones before the call: nothing is written and nothing
    is sent before the record is validated.  So is a body that [Bind]
    could not decode. *)
Theorem C3_invalid_post_rejected
        (now : Time) (st : Main.State) (newQuestion : Main.Question) :
  Main.TimeLeft newQuestion < 0 \/ validTypes (Main.Type_ newQuestion) = false ->
  (exists msg,
      Main.setQuestion now st (Main.Bound newQuestion)
      = (st, [], Main.mkResponse StatusBadRequest (Main.JSONError msg)))
  /\ (forall err,
         Main.setQuestion now st (Main.BindError err)
         = (st, [], Main.mkResponse StatusBadRequest (Main.JSONError err))).
Proof.
  intros H. split; [| reflexivity].
  unfold Main.setQuestion, Main.validateQuestion.
  destruct (Main.TimeLeft newQuestion <? 0) eqn:E; [eexists; reflexivity |].
  destruct H as [H | H]; [apply Z.ltb_ge in E; lia |].
  rewrite H. eexists; reflexivity.
Qed.

Lemma C3_invalid_post_rejected_witness :
  exists msg,
    Main.setQuestion 7 (Main.initializeQuestion 0)
      (Main.Bound (Main.mkQuestion (lit "x") (-1) (lit "pomoc") 3 false))
    = (Main.initializeQuestion 0, [],
       Main.mkResponse StatusBadRequest (Main.JSONError msg)).
Proof.
  apply (C3_invalid_post_rejected 7 (Main.initializeQuestion 0)
           (Main.mkQuestion (lit "x") (-1) (lit "pomoc") 3 false)).
  left. simpl. lia.
Defined.

(** What an accepted POST stores. *)
Lemma setQuestion_accepted (now : Time) (st : Main.State) (q : Main.Question) :
  Main.validateQuestion q = None ->
  Main.setQuestion now st (Main.Bound q)
  = (let q' := Main.with_StartTime q now in
     let q' := if eqs (Main.Type_ q') (lit "end")
               then Main.with_Question q' (lit "END") else q' in
     (Main.set_question st q', [GoSendCurrentQuestion],
      Main.mkResponse StatusOK (Main.JSONQuestion q'))).
Proof. intros H. unfold Main.setQuestion. rewrite H. reflexivity. Qed.

(** C10.  An accepted POST stores the clock's reading as the start time,
    and the [start_time] of the body has no part in the outcome: two
    bodies that differ in it alone give the same state, effects and
    answer. *)
Theorem C10_post_start_time_ignored
        (now : Time) (st : Main.State) (q : Main.Question) (t : Time) :
  Main.validateQuestion q = None ->
  Main.StartTime (Main.question (fst (fst (Main.setQuestion now st (Main.Bound q)))))
  = now
  /\ Main.setQuestion now st (Main.Bound (Main.with_StartTime q t))
     = Main.setQuestion now st (Main.Bound q).
Proof.
  intros H.
  assert (Ht : Main.validateQuestion (Main.with_StartTime q t) = None)
    by exact H.
  rewrite (setQuestion_accepted _ _ _ H), (setQuestion_accepted _ _ _ Ht).
  cbv zeta. simpl. split; [| reflexivity].
  destruct (eqs (Main.Type_ q) (lit "end")); reflexivity.
Qed.

Lemma C10_post_start_time_ignored_witness :
  Main.StartTime (Main.question (fst (fst
    (Main.setQuestion 7 (Main.initializeQuestion 0)
       (Main.Bound (Main.mkQuestion (lit "x") Second (lit "waiting") 99 false))))))
  = 7.
Proof.
  exact (proj1 (C10_post_start_time_ignored 7 (Main.initializeQuestion 0)
                  (Main.mkQuestion (lit "x") Second (lit "waiting") 99 false)
                  12345 eq_refl)).
Defined.

(* ================================================================== *)
(** ** The command loop *)

(** A string [Atoi] reads as a number is none of the sub-commands. *)
Lemma Atoi_not_subcommand (a : gostring) (n : Z) :
  Atoi a = Some n -> isSubcommand a = false.
Proof.
  intros H. unfold isSubcommand.
  destruct (eqs a (lit "last")) eqn:E1;
    [apply eqs_true in E1; subst a; vm_compute in H; discriminate |].
  destruct (eqs a (lit "pause")) eqn:E2;
    [apply eqs_true in E2; subst a; vm_compute in H; discriminate |].
  destruct (eqs a (lit "countUp")) eqn:E3;
    [apply eqs_true in E3; subst a; vm_compute in H; discriminate |].
  reflexivity.
Qed.

Lemma isSubcommand_false (a : gostring) :
  isSubcommand a = false ->
  eqs a (lit "last") = false /\ eqs a (lit "pause") = false
  /\ eqs a (lit "countUp") = false.
Proof.
  unfold isSubcommand.
  destruct (eqs a (lit "last")), (eqs a (lit "pause")), (eqs a (lit "countUp"));
    simpl; intros H; try discriminate; repeat split.
Qed.

(** [time <n>] with a number that is not negative: the budget is the
    product the machine computes. *)
Lemma exec_time_number (now : Time) (st : Main.State) (cmd a : gostring) (n : Z) :
  Fields cmd = [lit "time"; a] -> Atoi a = Some n -> 0 <= n ->
  Main.exec now st cmd
  = (Next (Main.mkState
             (Main.mkQuestion (Main.Question_ (Main.question st)) (seconds n)
                              (Main.Type_ (Main.question st)) now false)
             (Main.pause st) (Main.loggingEnabled st) n),
     [Printf success "Time left set to: %d seconds\n" [ArgInt n]]).
Proof.
  intros Hf Ha Hn. unfold Main.exec. rewrite Hf. eval_eqs. simpl.
  destruct (isSubcommand_false _ (Atoi_not_subcommand _ _ Ha)) as (-> & -> & ->).
  rewrite Ha. destruct (n <? 0) eqn:E; [apply Z.ltb_lt in E; lia |].
  reflexivity.
Qed.

Lemma exec000_time_number (now : Time) (st : Part000.State) (cmd a : gostring)
      (n : Z) :
  Fields cmd = [lit "time"; a] -> Atoi a = Some n -> 0 <= n ->
  Part000.exec now st cmd
  = (Next (Part000.mkState
             (Part000.mkQuestion (Part000.Question_ (Part000.question st))
                                 (seconds n)
                                 (Part000.Type_ (Part000.question st)) now)
             (Part000.Pause st) (Part000.loggingEnabled st) n),
     [Printf success "Time left set to: %d seconds\n" [ArgInt n]]).
Proof.
  intros Hf Ha Hn. unfold Part000.exec. rewrite Hf. eval_eqs. simpl.
  destruct (isSubcommand_false _ (Atoi_not_subcommand _ _ Ha)) as (-> & -> & _).
  rewrite Ha. destruct (n <? 0) eqn:E; [apply Z.ltb_lt in E; lia |].
  reflexivity.
Qed.

Lemma badTimeArg_cases (a : gostring) :
  badTimeArg a = true ->
  isSubcommand a = false
  /\ (Atoi a = None \/ exists n, Atoi a = Some n /\ (n <? 0) = true).
Proof.
  unfold badTimeArg. intros H. apply andb_true_iff in H as [H1 H2].
  apply negb_true_iff in H1. split; [exact H1 |].
  destruct (Atoi a) as [n |]; [right; exists n; auto | left; reflexivity].
Qed.

(** [time <a>] with an argument that is no sub-command and no number the
    code accepts: an error is printed and the state is kept. *)
Lemma exec_time_bad (now : Time) (st : Main.State) (cmd a : gostring) :
  Fields cmd = [lit "time"; a] -> badTimeArg a = true ->
  Main.exec now st cmd
  = (Next st, [Println errorC "Time must be a non-negative integer"]).
Proof.
  intros Hf Hb. unfold Main.exec. rewrite Hf. eval_eqs. simpl.
  destruct (badTimeArg_cases _ Hb) as [Hs [Ha | (n & Ha & Hn)]];
    destruct (isSubcommand_false _ Hs) as (-> & -> & ->); rewrite Ha;
    [reflexivity | rewrite Hn; reflexivity].
Qed.

Lemma exec000_time_bad (now : Time) (st : Part000.State) (cmd a : gostring) :
  Fields cmd = [lit "time"; a] -> badTimeArg a = true ->
  Part000.exec now st cmd
  = (Next st, [Println errorC "Time must be a positive number"]).
Proof.
  intros Hf Hb. unfold Part000.exec. rewrite Hf. eval_eqs. simpl.
  destruct (badTimeArg_cases _ Hb) as [Hs [Ha | (n & Ha & Hn)]];
    destruct (isSubcommand_false _ Hs) as (-> & -> & _); rewrite Ha;
    [reflexivity | rewrite Hn; reflexivity].
Qed.

(** C7, as amended.  For an argument that [Atoi] reads as a number [n]
    with [0 <= n <= 9223372036], the seconds whose nanoseconds fit a
    [Duration], [time <n>] stores a budget of exactly [n] seconds, clears
    [countUp], stores the clock's reading as the start time and records
    [n] as the last manual duration, the rest of the state kept; an
    argument that is no sub-command and that [Atoi] turns down or reads as
    negative is answered with an error and the state is kept.  The simpler
    variant, which has no [countUp], does the same. *)
Theorem C7_time_number :
  (forall (now : Time) (st : Main.State) (cmd a : gostring) (n : Z),
      Fields (TrimSpace cmd) = [lit "time"; a] -> Atoi a = Some n ->
      0 <= n <= maxSeconds ->
      exists st' out,
        Main.loopBody now st cmd = (Next st', out)
        /\ Main.TimeLeft (Main.question st') = n * Second
        /\ Main.CountUp (Main.question st') = false
        /\ Main.StartTime (Main.question st') = now
        /\ Main.lastTime st' = n
        /\ Main.Question_ (Main.question st') = Main.Question_ (Main.question st)
        /\ Main.Type_ (Main.question st') = Main.Type_ (Main.question st)
        /\ Main.pause st' = Main.pause st
        /\ Main.loggingEnabled st' = Main.loggingEnabled st)
  /\ (forall (now : Time) (st : Main.State) (cmd a : gostring),
         Fields (TrimSpace cmd) = [lit "time"; a] -> badTimeArg a = true ->
         exists out, Main.loopBody now st cmd = (Next st, out) /\ errorReport out)
  /\ (forall (now : Time) (st0 : Part000.State) (cmd a : gostring) (n : Z),
         Fields (TrimSpace cmd) = [lit "time"; a] -> Atoi a = Some n ->
         0 <= n <= maxSeconds ->
         exists st' out,
           Part000.loopBody now st0 cmd = (Next st', out)
           /\ Part000.TimeLeft (Part000.question st') = n * Second
           /\ Part000.StartTime (Part000.question st') = now
           /\ Part000.lastTime st' = n
           /\ Part000.Question_ (Part000.question st')
              = Part000.Question_ (Part000.question st0)
           /\ Part000.Type_ (Part000.question st')
              = Part000.Type_ (Part000.question st0)
           /\ Part000.Pause st' = Part000.Pause st0
           /\ Part000.loggingEnabled st' = Part000.loggingEnabled st0)
  /\ (forall (now : Time) (st0 : Part000.State) (cmd a : gostring),
         Fields (TrimSpace cmd) = [lit "time"; a] -> badTimeArg a = true ->
         exists out,
           Part000.loopBody now st0 cmd = (Next st0, out) /\ errorReport out).
Proof.
  repeat apply conj.
  - intros now st cmd a n Hf Ha Hn.
    rewrite (loopBody_exec _ _ _ _ _ Hf),
      (exec_time_number _ _ _ _ _ Hf Ha (proj1 Hn)).
    do 2 eexists. split; [reflexivity |]. simpl.
    rewrite (seconds_exact _ Hn). repeat split.
  - intros now st cmd a Hf Hb.
    rewrite (loopBody_exec _ _ _ _ _ Hf), (exec_time_bad _ _ _ _ Hf Hb).
    eexists. split; [reflexivity |]. split; [discriminate | reflexivity].
  - intros now st0 cmd a n Hf Ha Hn.
    rewrite (loopBody000_exec _ _ _ _ _ Hf),
      (exec000_time_number _ _ _ _ _ Hf Ha (proj1 Hn)).
    do 2 eexists. split; [reflexivity |]. simpl.
    rewrite (seconds_exact _ Hn). repeat split.
  - intros now st0 cmd a Hf Hb.
    rewrite (loopBody000_exec _ _ _ _ _ Hf), (exec000_time_bad _ _ _ _ Hf Hb).
    eexists. split; [reflexivity |]. split; [discriminate | reflexivity].
Qed.

Lemma C7_time_number_witness :
  exists st' out,
    Main.loopBody 7 (Main.initializeQuestion 0) (lit " time  45 ")
    = (Next st', out)
    /\ Main.TimeLeft (Main.question st') = 45 * Second
    /\ Main.CountUp (Main.question st') = false
    /\ Main.StartTime (Main.question st') = 7
    /\ Main.lastTime st' = 45
    /\ Main.Question_ (Main.question st') = lit "Default question"
    /\ Main.Type_ (Main.question st') = lit "pomoc"
    /\ Main.pause st' = false
    /\ Main.loggingEnabled st' = false.
Proof.
  refine (proj1 C7_time_number 7 (Main.initializeQuestion 0)
            (lit " time  45 ") (lit "45") 45 _ _ _).
  - reflexivity.
  - reflexivity.
  - unfold maxSeconds. lia.
Defined.

(** C7 as it is stated fails: [time 9223372037] is accepted, and the budget
    stored is not 9223372037 seconds: the product leaves the 64 bits of a
    [Duration] and wraps around to a negative number of nanoseconds. *)
Lemma C7_counterexample :
  0 <= 9223372037
  /\ exists st',
       fst (Main.loopBody 7 (Main.initializeQuestion 0) (lit "time 9223372037"))
       = Next st'
       /\ Main.lastTime st' = 9223372037
       /\ Main.TimeLeft (Main.question st') = -9223372036709551616
       /\ Main.TimeLeft (Main.question st') <> 9223372037 * Second.
Proof.
  split; [lia |]. eexists. split; [vm_compute; reflexivity |].
  split; [reflexivity |]. split; [reflexivity | discriminate].
Qed.

(* ------------------------------------------------------------------ *)

Lemma exec_type_end (now : Time) (st : Main.State) (cmd : gostring) :
  Fields cmd = [lit "type"; lit "end"] ->
  Main.exec now st cmd
  = (Next (Main.set_question st
             (Main.with_Question (Main.with_Type (Main.question st) (lit "end"))
                                 (lit "END"))),
     [Printf success "Type set to: %s\n" [ArgStr (lit "end")]]).
Proof.
  intros Hf. unfold Main.exec. rewrite Hf. eval_eqs.
  cbn [List.length Nat.eqb negb nth]. eval_eqs.
  cbn [negb Main.with_Type Main.Type_]. eval_eqs. reflexivity.
Qed.

Lemma exec000_type_end (now : Time) (st : Part000.State) (cmd : gostring) :
  Fields cmd = [lit "type"; lit "end"] ->
  Part000.exec now st cmd
  = (Next (Part000.set_question st
             (Part000.with_Type (Part000.question st) (lit "end"))),
     [Printf success "Type set to: %s\n" [ArgStr (lit "end")]]).
Proof.
  intros Hf. unfold Part000.exec. rewrite Hf. eval_eqs.
  cbn [List.length Nat.eqb negb nth]. eval_eqs. reflexivity.
Qed.

(** C2, as amended.  In [main.go] every accepted write that sets the type
    to [end], the command [type end] as well as a POST with the type
    [end], stores the text [END], whatever the text was.  In the simpler
    variant [type end] stores the type and keeps the text. *)
Theorem C2_end_forces_text :
  (forall (now : Time) (st : Main.State) (cmd : gostring),
      Fields (TrimSpace cmd) = [lit "type"; lit "end"] ->
      exists st' out,
        Main.loopBody now st cmd = (Next st', out)
        /\ Main.Type_ (Main.question st') = lit "end"
        /\ Main.Question_ (Main.question st') = lit "END")
  /\ (forall (now : Time) (st : Main.State) (q : Main.Question),
         Main.validateQuestion q = None -> Main.Type_ q = lit "end" ->
         exists st' out resp,
           Main.setQuestion now st (Main.Bound q) = (st', out, resp)
           /\ Main.code resp = StatusOK
           /\ Main.Type_ (Main.question st') = lit "end"
           /\ Main.Question_ (Main.question st') = lit "END")
  /\ (forall (now : Time) (st0 : Part000.State) (cmd : gostring),
         Fields (TrimSpace cmd) = [lit "type"; lit "end"] ->
         exists out,
           Part000.loopBody now st0 cmd
           = (Next (Part000.set_question st0
                      (Part000.with_Type (Part000.question st0) (lit "end"))),
              out)).
Proof.
  repeat apply conj.
  - intros now st cmd Hf.
    rewrite (loopBody_exec _ _ _ _ _ Hf), (exec_type_end _ _ _ Hf).
    do 2 eexists. split; [reflexivity |]. split; reflexivity.
  - intros now st q Hv Ht.
    rewrite (setQuestion_accepted _ _ _ Hv). cbv zeta.
    cbn [Main.with_StartTime Main.Type_]. rewrite Ht. eval_eqs.
    do 3 eexists. split; [reflexivity |]. repeat split. exact Ht.
  - intros now st0 cmd Hf.
    rewrite (loopBody000_exec _ _ _ _ _ Hf), (exec000_type_end _ _ _ Hf).
    eexists. reflexivity.
Qed.

Lemma C2_end_forces_text_witness :
  exists st' out,
    Main.loopBody 7 (Main.initializeQuestion 0) (lit "type end") = (Next st', out)
    /\ Main.Type_ (Main.question st') = lit "end"
    /\ Main.Question_ (Main.question st') = lit "END".
Proof.
  refine (proj1 C2_end_forces_text 7 (Main.initializeQuestion 0)
            (lit "type end") _).
  reflexivity.
Defined.

(** C2 as it is stated fails in the simpler variant: after [type end] on
    the default question the stored text is still the default one. *)
Lemma C2_counterexample :
  exists st',
    fst (Part000.loopBody 7 (Part000.initial 0) (lit "type end")) = Next st'
    /\ Part000.Type_ (Part000.question st') = lit "end"
    /\ Part000.Question_ (Part000.question st') = lit "Default question"
    /\ Part000.Question_ (Part000.question st') <> lit "END".
Proof.
  eexists. split; [vm_compute; reflexivity |].
  split; [reflexivity |]. split; [reflexivity | discriminate].
Qed.

(* ------------------------------------------------------------------ *)

(** A command that neither sets a duration by a number nor exits leaves
    [lastTime] alone, and the loop goes on. *)
Lemma loopBody_keeps_lastTime (now : Time) (st : Main.State) (cmd : gostring) :
  Main.isNumericTime cmd = false -> Main.isExit cmd = false ->
  exists st', fst (Main.loopBody now st cmd) = Next st'
              /\ Main.lastTime st' = Main.lastTime st.
Proof.
  unfold Main.isNumericTime, Main.isExit, Main.loopBody. intros Hn Hx.
  destruct (isEmpty (TrimSpace cmd)) eqn:He; [exists st; auto |].
  pose proof (Fields_TrimSpace _ He) as Hf.
  unfold Main.exec.
  destruct (Fields (TrimSpace cmd)) as [| command args]; [congruence |].
  rewrite Hx.
  destruct args as [| a [| b l]];
    cbn [List.length Nat.eqb Nat.ltb Nat.leb negb nth tl];
    repeat match goal with
      | |- context [if ?b then _ else _] => destruct b eqn:?
      | |- context [match Atoi ?x with _ => _ end] => destruct (Atoi x) eqn:?
      end;
    try (eexists; split; reflexivity).
  exfalso.
  repeat match goal with
    | H : eqs _ _ = _ |- _ => rewrite H in Hn; clear H
    | H : Atoi _ = _ |- _ => rewrite H in Hn; clear H
    end.
  simpl in Hn. apply Z.leb_gt in Hn.
  match goal with H : (_ <? 0) = false |- _ => apply Z.ltb_ge in H end. lia.
Qed.

Lemma act_quiet (st : Main.State) (a : Main.Action) :
  quiet a ->
  exists st', Main.act st a = Next st' /\ Main.lastTime st' = Main.lastTime st.
Proof.
  destruct a as [now cmd | now | now req]; simpl.
  - intros [Hn Hx]. apply loopBody_keeps_lastTime; assumption.
  - intros _. eexists. split; [reflexivity |].
    unfold Main.getQuestion. destruct (Main.pause st); reflexivity.
  - intros _. eexists. split; [reflexivity |].
    unfold Main.setQuestion. destruct req as [err | q]; [reflexivity |].
    destruct (Main.validateQuestion q); reflexivity.
Qed.

Lemma run_quiet (mid : list Main.Action) (st : Main.State) :
  Forall quiet mid ->
  exists st', Main.run st mid = Next st' /\ Main.lastTime st' = Main.lastTime st.
Proof.
  intros H. revert st. induction H as [| a mid Ha _ IH]; intros st.
  - exists st. split; reflexivity.
  - destruct (act_quiet st a Ha) as (st1 & H1 & L1).
    destruct (IH st1) as (st2 & H2 & L2).
    exists st2. simpl. rewrite H1. split; [exact H2 | congruence].
Qed.

Lemma run_app (l1 l2 : list Main.Action) (st : Main.State) :
  Main.run st (l1 ++ l2)
  = match Main.run st l1 with
    | Next st' => Main.run st' l2
    | fl => fl
    end.
Proof.
  revert st. induction l1 as [| a l1 IH]; intros st; [reflexivity |].
  simpl. destruct (Main.act st a); [apply IH | reflexivity | reflexivity].
Qed.

Lemma exec_time_last (now : Time) (st : Main.State) (cmd : gostring) :
  Fields cmd = [lit "time"; lit "last"] ->
  Main.exec now st cmd
  = (Next (Main.set_question st
             (Main.mkQuestion (Main.Question_ (Main.question st))
                              (seconds (Main.lastTime st))
                              (Main.Type_ (Main.question st)) now false)),
     [Printf success "Time left set to: %d seconds\n"
             [ArgInt (Main.lastTime st)]]).
Proof.
  intros Hf. unfold Main.exec. rewrite Hf. eval_eqs.
  cbn [List.length Nat.eqb negb nth]. eval_eqs. reflexivity.
Qed.

(** C8, as amended.  For a number [n] with [0 <= n <= 9223372036], after
    [time <n>] and then any events among which no command sets a duration
    by a number (and none ends the process), [time last] stores a budget
    of exactly [n] seconds, clears [countUp] and stores the clock's
    reading as the start time. *)
Theorem C8_time_last_restores
        (st : Main.State) (t0 t1 : Time) (cmd a cmdLast : gostring) (n : Z)
        (mid : list Main.Action) :
  Fields (TrimSpace cmd) = [lit "time"; a] -> Atoi a = Some n ->
  0 <= n <= maxSeconds ->
  Forall quiet mid ->
  Fields (TrimSpace cmdLast) = [lit "time"; lit "last"] ->
  exists st',
    Main.run st (Main.ACmd t0 cmd :: mid ++ [Main.ACmd t1 cmdLast]) = Next st'
    /\ Main.TimeLeft (Main.question st') = n * Second
    /\ Main.CountUp (Main.question st') = false
    /\ Main.StartTime (Main.question st') = t1
    /\ Main.lastTime st' = n.
Proof.
  intros Hf Ha Hn Hq Hl.
  cbn [Main.run Main.act].
  rewrite (loopBody_exec _ _ _ _ _ Hf),
    (exec_time_number _ _ _ _ _ Hf Ha (proj1 Hn)). cbn [fst].
  rewrite run_app.
  match goal with |- context [Main.run ?s mid] =>
    destruct (run_quiet mid s Hq) as (st2 & -> & L2) end.
  cbn [Main.run Main.act Main.lastTime] in *.
  rewrite (loopBody_exec _ _ _ _ _ Hl), (exec_time_last _ _ _ Hl). cbn [fst].
  eexists. split; [reflexivity |]. simpl.
  rewrite L2, (seconds_exact _ Hn). repeat split.
Qed.

Lemma C8_time_last_restores_witness :
  exists st',
    Main.run (Main.initializeQuestion 0)
      (Main.ACmd 1 (lit "time 45")
       :: [Main.ACmd 2 (lit "time countUp"); Main.AGet 3;
           Main.ACmd 4 (lit "question Pomoc na stole")]
       ++ [Main.ACmd 5 (lit "time last")]) = Next st'
    /\ Main.TimeLeft (Main.question st') = 45 * Second
    /\ Main.CountUp (Main.question st') = false
    /\ Main.StartTime (Main.question st') = 5
    /\ Main.lastTime st' = 45.
Proof.
  refine (C8_time_last_restores (Main.initializeQuestion 0) 1 5
            (lit "time 45") (lit "45") (lit "time last") 45
            [Main.ACmd 2 (lit "time countUp"); Main.AGet 3;
             Main.ACmd 4 (lit "question Pomoc na stole")] _ _ _ _ _).
  - reflexivity.
  - reflexivity.
  - unfold maxSeconds. lia.
  - repeat constructor.
  - reflexivity.
Defined.

(** C8 as it is stated fails: after [time 9223372037] and [time last] the
    budget stored is not 9223372037 seconds, but the negative number of
    nanoseconds the product wraps around to. *)
Lemma C8_counterexample :
  0 <= 9223372037
  /\ exists st',
       Main.run (Main.initializeQuestion 0)
         [Main.ACmd 1 (lit "time 9223372037"); Main.ACmd 2 (lit "time last")]
       = Next st'
       /\ Main.TimeLeft (Main.question st') = -9223372036709551616
       /\ Main.TimeLeft (Main.question st') <> 9223372037 * Second.
Proof.
  split; [lia |]. eexists. split; [vm_compute; reflexivity |].
  split; [reflexivity | discriminate].
Qed.

(* ------------------------------------------------------------------ *)

(** [args[0]] never fails: a command with a field does not panic. *)
Lemma exec_no_panic (now : Time) (st : Main.State) (cmd : gostring) :
  Fields cmd <> [] -> fst (Main.exec now st cmd) <> Panic.
Proof.
  intros Hf. unfold Main.exec.
  destruct (Fields cmd) as [| command args]; [congruence |].
  repeat match goal with
    | |- context [if ?b then _ else _] => destruct b
    | |- context [match Atoi ?x with _ => _ end] => destruct (Atoi x)
    end; discriminate.
Qed.

Lemma loopBody_no_panic (now : Time) (st : Main.State) (cmd : gostring) :
  fst (Main.loopBody now st cmd) <> Panic.
Proof.
  unfold Main.loopBody.
  destruct (isEmpty (TrimSpace cmd)) eqn:He; [discriminate |].
  apply exec_no_panic, Fields_TrimSpace, He.
Qed.

Lemma commandsLoop_no_panic (clock : nat -> Time) (commands : list gostring) :
  forall i st, fst (Main.commandsLoop clock i commands st) <> Panic.
Proof.
  induction commands as [| cmd rest IH]; intros i st; simpl; [discriminate |].
  pose proof (loopBody_no_panic (clock i) st cmd) as Hb.
  destruct (Main.loopBody (clock i) st cmd) as [[st' | |] out]; simpl in *;
    [| discriminate | congruence].
  specialize (IH (S i) st').
  destruct (Main.commandsLoop clock (S i) rest st'). exact IH.
Qed.

(** The loop over the pieces runs the trimmed pieces that are not empty,
    in their order, each at the clock reading of its pass. *)
Lemma commandsLoop_specRun (clock : nat -> Time) (commands : list gostring) :
  forall i st,
    Main.commandsLoop clock i commands st
    = specRun clock
        (filter (fun p => negb (isEmpty (snd p)))
                (indexed i (map TrimSpace commands))) st.
Proof.
  induction commands as [| cmd rest IH]; intros i st; [reflexivity |].
  cbn [Main.commandsLoop map indexed filter snd]. unfold Main.loopBody.
  destruct (isEmpty (TrimSpace cmd)) eqn:He; cbn [negb].
  - rewrite IH. destruct (specRun _ _ _). reflexivity.
  - cbn [specRun].
    destruct (Main.exec (clock i) st (TrimSpace cmd)) as [[st' | |] out];
      [rewrite IH | |]; reflexivity.
Qed.

Lemma startCLI_line_specRun (clock : nat -> Time) (st : Main.State)
      (line : gostring) :
  Main.startCLI_line clock st line = specRun clock (specCommands line) st.
Proof.
  unfold Main.startCLI_line, specCommands.
  rewrite <- (Split_TrimSpace 59 eq_refl line).
  destruct (isEmpty (TrimSpace line)) eqn:He.
  - destruct (TrimSpace line); [reflexivity | discriminate].
  - apply commandsLoop_specRun.
Qed.

(** A command the checks turn down prints an error, whatever the clock
    reads, and the state is kept. *)
Lemma exec_malformed (st : Main.State) (cmd : gostring) :
  malformed cmd = true ->
  exists out,
    errorReport out /\ forall now, Main.exec now st cmd = (Next st, out).
Proof.
  unfold malformed, turnedDown, badTimeArg, isSubcommand, Main.exec. intros H.
  destruct (Fields cmd) as [| command args]; [discriminate |].
  destruct args as [| a [| b l]];
    cbn [List.length Nat.eqb Nat.ltb Nat.leb negb nth tl];
    repeat match goal with
      | |- context [if ?b then _ else _] => destruct b eqn:?
      | |- context [match Atoi ?x with _ => _ end] => destruct (Atoi x) eqn:?
      end;
    try discriminate H;
    try (eexists; split; [| intros _; reflexivity];
         split; [discriminate | reflexivity]).
  all: simpl in H; discriminate H.
Qed.

Lemma malformed_not_empty (cmd : gostring) :
  malformed cmd = true -> isEmpty cmd = false.
Proof. destruct cmd; [discriminate | reflexivity]. Qed.

Lemma exec_help (now : Time) (st : Main.State) (cmd : gostring)
      (rest : list gostring) :
  Fields cmd = lit "help" :: rest ->
  Main.exec now st cmd = (Next st, Main.printHelp).
Proof. intros H. unfold Main.exec. rewrite H. eval_eqs. reflexivity. Qed.

Lemma exec_exit (now : Time) (st : Main.State) (cmd : gostring)
      (rest : list gostring) :
  Fields cmd = lit "exit" :: rest ->
  Main.exec now st cmd = (Exit, [Println success "Shutting down server..."]).
Proof. intros H. unfold Main.exec. rewrite H. eval_eqs. reflexivity. Qed.

(** C9, as amended.  A line is handled as its pieces between semicolons,
    each trimmed, the empty ones skipped, in their order, and no piece
    makes the loop fail.  A command that a check of the loop turns down
    ([logging], [time] or [type] without exactly one argument or with an
    argument that is not known, [question] without a word, an unknown
    leading word) prints an error, keeps the state, and the loop goes on
    with the next piece.  [status], [help] and [exit] have no check of
    their arity: followed by more words they do what they do alone, and
    [exit] ends the process. *)
Theorem C9_command_loop :
  (forall (clock : nat -> Time) (st : Main.State) (line : gostring),
      Main.startCLI_line clock st line = specRun clock (specCommands line) st
      /\ fst (Main.startCLI_line clock st line) <> Panic)
  /\ (forall (st : Main.State) (cmd : gostring),
         malformed (TrimSpace cmd) = true ->
         exists out,
           errorReport out
           /\ (forall now, Main.loopBody now st cmd = (Next st, out))
           /\ (forall clock i rest,
                  Main.commandsLoop clock i (cmd :: rest) st
                  = (fst (Main.commandsLoop clock (S i) rest st),
                     out ++ snd (Main.commandsLoop clock (S i) rest st))))
  /\ (forall now st c, extraWords "status" c ->
                       Main.exec now st c = Main.exec now st (lit "status"))
  /\ (forall now st c, extraWords "help" c ->
                       Main.exec now st c = (Next st, Main.printHelp))
  /\ (forall now (st : Main.State) c,
         extraWords "exit" c ->
         Main.exec now st c
         = (Exit, [Println success "Shutting down server..."])).
Proof.
  repeat apply conj.
  - intros clock st line. split; [apply startCLI_line_specRun |].
    unfold Main.startCLI_line.
    destruct (isEmpty (TrimSpace line)); [discriminate |].
    apply commandsLoop_no_panic.
  - intros st cmd Hm.
    destruct (exec_malformed st _ Hm) as (out & Ho & He).
    assert (Hb : forall now, Main.loopBody now st cmd = (Next st, out)).
    { intros now. unfold Main.loopBody.
      rewrite (malformed_not_empty _ Hm). apply He. }
    exists out. repeat split; try apply Ho; [exact Hb |].
    intros clock i rest. cbn [Main.commandsLoop]. rewrite Hb.
    destruct (Main.commandsLoop clock (S i) rest st). reflexivity.
  - intros now st c (a & args & Hf).
    rewrite (exec_status _ _ _ _ Hf).
    symmetry. apply (exec_status _ _ _ []). reflexivity.
  - intros now st c (a & args & Hf). apply (exec_help _ _ _ _ Hf).
  - intros now st c (a & args & Hf). apply (exec_exit _ _ _ _ Hf).
Qed.

Lemma C9_command_loop_witness :
  exists out,
    errorReport out
    /\ (forall now, Main.loopBody now (Main.initializeQuestion 0)
                      (lit " time 5 6 ")
                    = (Next (Main.initializeQuestion 0), out))
    /\ (forall clock i rest,
           Main.commandsLoop clock i (lit " time 5 6 " :: rest)
             (Main.initializeQuestion 0)
           = (fst (Main.commandsLoop clock (S i) rest
                     (Main.initializeQuestion 0)),
              out ++ snd (Main.commandsLoop clock (S i) rest
                            (Main.initializeQuestion 0)))).
Proof.
  refine (proj1 (proj2 C9_command_loop) (Main.initializeQuestion 0)
            (lit " time 5 6 ") _).
  reflexivity.
Defined.

(** C9 as it is stated fails: [exit now] has a wrong arity by the table of
    commands, yet no error is printed and the loop does not go on: the
    process exits, and [time 5] after the semicolon is never run. *)
Lemma C9_counterexample :
  specMalformed (lit "exit now") = true
  /\ Main.startCLI_line (fun _ => 7) (Main.initializeQuestion 0)
       (lit "exit now; time 5")
     = (Exit, [Println success "Shutting down server..."])
  /\ forallb isError [Println success "Shutting down server..."] = false.
Proof. repeat split. Qed.

(* ================================================================== *)
(** ** Further properties of the read path and of POST *)

(** X1.  In count-up mode, not paused, [GET /get-question] answers the
    time elapsed since the start as [time.Since] reports it, with the text,
    the type and the start time as stored, and keeps the state; [d]
    nanoseconds after the start, for a [d] that a [Duration] holds, the
    answer is [d], whatever the stored budget. *)
Theorem X1_count_up_read :
  forall (st : Main.State) (now : Time),
    Main.pause st = false -> Main.CountUp (Main.question st) = true ->
    Main.getQuestion now st
    = (st, Main.mkResponse StatusOK (Main.JSONQuestion
         (Main.with_TimeLeft (Main.question st)
            (Since now (Main.StartTime (Main.question st))))))
    /\ (forall d, 0 <= d <= maxInt64 ->
                  now = Main.StartTime (Main.question st) + d ->
                  Since now (Main.StartTime (Main.question st)) = d).
Proof.
  intros st now Hp Hc. split.
  - unfold Main.getQuestion. rewrite Hp, Hc. reflexivity.
  - intros d Hd ->. apply Since_at_end. exact Hd.
Qed.

Lemma X1_count_up_read_witness :
  Main.getQuestion 12
    (Main.set_question (Main.initializeQuestion 0)
       (Main.with_CountUp (Main.question (Main.initializeQuestion 0)) true))
  = (Main.set_question (Main.initializeQuestion 0)
       (Main.with_CountUp (Main.question (Main.initializeQuestion 0)) true),
     Main.mkResponse StatusOK (Main.JSONQuestion
       (Main.mkQuestion (lit "Default question") 12 (lit "pomoc") 0 true))).
Proof.
  exact (proj1 (X1_count_up_read
                  (Main.set_question (Main.initializeQuestion 0)
                     (Main.with_CountUp
                        (Main.question (Main.initializeQuestion 0)) true))
                  12 eq_refl eq_refl)).
Defined.

(** X2.  A running countdown that has not run out: [d] nanoseconds after
    the start, with [d] no more than the budget, the answer has
    [time_left = budget - d] and the type as stored; read at the start it
    has the whole budget.  Both variants. *)
Theorem X2_countdown_before_end :
  (forall (st : Main.State) (d : Z),
      Main.pause st = false -> Main.CountUp (Main.question st) = false ->
      0 <= d <= Main.TimeLeft (Main.question st) ->
      Main.TimeLeft (Main.question st) <= maxInt64 ->
      snd (Main.getQuestion (Main.StartTime (Main.question st) + d) st)
      = Main.mkResponse StatusOK (Main.JSONQuestion
          (Main.with_TimeLeft (Main.question st)
             (Main.TimeLeft (Main.question st) - d))))
  /\ (forall (st0 : Part000.State) (d : Z),
         Part000.Pause st0 = false ->
         0 <= d <= Part000.TimeLeft (Part000.question st0) ->
         Part000.TimeLeft (Part000.question st0) <= maxInt64 ->
         snd (Part000.getQuestion
                (Part000.StartTime (Part000.question st0) + d) st0)
         = Part000.mkResponse StatusOK
             (Part000.with_TimeLeft (Part000.question st0)
                (Part000.TimeLeft (Part000.question st0) - d))).
Proof.
  assert (Hw : forall b d, 0 <= d <= b -> b <= maxInt64 ->
                           wrap64 (b - d) = b - d /\ (b - d <? 0) = false).
  { intros b d Hd Hb. split.
    - apply wrap64_id. unfold int64, minInt64, maxInt64 in *. lia.
    - apply Z.ltb_ge. lia. }
  split.
  - intros st d Hp Hc Hd Hb. rewrite (getQuestion_countdown _ _ Hp Hc).
    cbv zeta. rewrite Since_at_end by lia.
    destruct (Hw _ _ Hd Hb) as [-> ->]. reflexivity.
  - intros st0 d Hp Hd Hb. rewrite (getQuestion000_running _ _ Hp).
    cbv zeta. rewrite Since_at_end by lia.
    destruct (Hw _ _ Hd Hb) as [-> ->]. reflexivity.
Qed.

Lemma X2_countdown_before_end_witness :
  snd (Main.getQuestion (0 + 10 * Second) (Main.initializeQuestion 0))
  = Main.mkResponse StatusOK (Main.JSONQuestion
      (Main.with_TimeLeft (Main.question (Main.initializeQuestion 0))
         (30 * Second - 10 * Second))).
Proof.
  refine (proj1 X2_countdown_before_end (Main.initializeQuestion 0)
            (10 * Second) eq_refl eq_refl _ _).
  - simpl. unfold Second. lia.
  - simpl. unfold Second, maxInt64. lia.
Defined.

Lemma validTypes_iff (t : gostring) :
  validTypes t = true
  <-> t = lit "pomoc" \/ t = lit "rozstrel" \/ t = lit "waiting" \/ t = lit "end".
Proof.
  unfold validTypes. split.
  - intros H. repeat (apply orb_true_iff in H; destruct H as [H | H]);
      apply eqs_true in H; auto.
  - intros [-> | [-> | [-> | ->]]]; reflexivity.
Qed.

(** X3.  [validateQuestion] accepts a record exactly when its [time_left]
    is not negative and its type is one of [pomoc], [rozstrel], [waiting],
    [end]; the text, the start time and [count_up] play no part. *)
Theorem X3_validateQuestion_accepts (q : Main.Question) :
  Main.validateQuestion q = None
  <-> 0 <= Main.TimeLeft q
      /\ (Main.Type_ q = lit "pomoc" \/ Main.Type_ q = lit "rozstrel"
          \/ Main.Type_ q = lit "waiting" \/ Main.Type_ q = lit "end").
Proof.
  unfold Main.validateQuestion. rewrite <- validTypes_iff.
  destruct (Main.TimeLeft q <? 0) eqn:E.
  - apply Z.ltb_lt in E. split; [discriminate | lia].
  - apply Z.ltb_ge in E.
    destruct (validTypes (Main.Type_ q)); simpl; split;
      try discriminate; intuition congruence.
Qed.

(** X4.  An accepted POST stores a record that [validateQuestion] accepts
    again, answers with that very record, spawns one notification and
    touches neither the pause, the logging flag nor the last manual
    duration; the budget, the type and [count_up] are those of the body,
    and so is the text unless the type is [end].  Posting the answer once
    more at the same instant changes nothing. *)
Theorem X4_post_accepted
        (now : Time) (st : Main.State) (q : Main.Question) :
  Main.validateQuestion q = None ->
  exists q',
    Main.setQuestion now st (Main.Bound q)
    = (Main.set_question st q', [GoSendCurrentQuestion],
       Main.mkResponse StatusOK (Main.JSONQuestion q'))
    /\ Main.validateQuestion q' = None
    /\ Main.TimeLeft q' = Main.TimeLeft q
    /\ Main.Type_ q' = Main.Type_ q
    /\ Main.CountUp q' = Main.CountUp q
    /\ (Main.Type_ q <> lit "end" -> Main.Question_ q' = Main.Question_ q)
    /\ Main.setQuestion now (Main.set_question st q') (Main.Bound q')
       = (Main.set_question st q', [GoSendCurrentQuestion],
          Main.mkResponse StatusOK (Main.JSONQuestion q')).
Proof.
  intros Hv. rewrite (setQuestion_accepted _ _ _ Hv). cbv zeta.
  cbn [Main.with_StartTime Main.Type_].
  eexists. split; [reflexivity |].
  assert (Hv' : Main.validateQuestion
                  (if eqs (Main.Type_ q) (lit "end")
                   then Main.with_Question (Main.with_StartTime q now) (lit "END")
                   else Main.with_StartTime q now) = None)
    by (destruct (eqs (Main.Type_ q) (lit "end")); exact Hv).
  split; [exact Hv' |].
  repeat split; try (destruct (eqs (Main.Type_ q) (lit "end")); reflexivity).
  - intros Hne. destruct (eqs (Main.Type_ q) (lit "end")) eqn:E;
      [apply eqs_true in E; contradiction | reflexivity].
  - rewrite (setQuestion_accepted _ _ _ Hv'). cbv zeta.
    destruct st as [q0 p l n].
    destruct (eqs (Main.Type_ q) (lit "end")) eqn:E; simpl; rewrite E;
      reflexivity.
Qed.

Lemma X4_post_accepted_witness :
  Main.validateQuestion
    (Main.mkQuestion (lit "x") Second (lit "waiting") 99 true) = None
  /\ exists q',
       Main.setQuestion 7 (Main.initializeQuestion 0)
         (Main.Bound (Main.mkQuestion (lit "x") Second (lit "waiting") 99 true))
       = (Main.set_question (Main.initializeQuestion 0) q',
          [GoSendCurrentQuestion],
          Main.mkResponse StatusOK (Main.JSONQuestion q'))
       /\ Main.validateQuestion q' = None
       /\ Main.TimeLeft q' = Second
       /\ Main.Type_ q' = lit "waiting"
       /\ Main.CountUp q' = true
       /\ (lit "waiting" <> lit "end" -> Main.Question_ q' = lit "x")
       /\ Main.setQuestion 7 (Main.set_question (Main.initializeQuestion 0) q')
            (Main.Bound q')
          = (Main.set_question (Main.initializeQuestion 0) q',
             [GoSendCurrentQuestion],
             Main.mkResponse StatusOK (Main.JSONQuestion q')).
Proof.
  split; [reflexivity |].
  exact (X4_post_accepted 7 (Main.initializeQuestion 0)
           (Main.mkQuestion (lit "x") Second (lit "waiting") 99 true) eq_refl).
Defined.

(* ================================================================== *)
(** ** Further properties of the command loop *)

(** A comparison with a literal, once decided, names the string. *)
Ltac eqs_subst :=
  repeat match goal with
    | H : eqs ?x (lit ?y) = true |- _ => apply eqs_true in H; try subst x
    end.

(** The cases of the [switch], by the number of arguments and by every
    test on the way. *)
Ltac switch_cases args :=
  let a := fresh "a" in
  let b := fresh "b" in
  let l := fresh "l" in
  destruct args as [| a [| b l]];
  cbn [List.length Nat.eqb Nat.ltb Nat.leb negb nth tl];
  repeat match goal with
    | |- context [if ?c then _ else _] => destruct c eqn:?
    | |- context [match Atoi ?x with _ => _ end] => destruct (Atoi x) eqn:?
    end.

(** X5.  What one command can change, by its first word: the type only
    with [type]; the text only with [type] or [question]; the budget,
    [countUp] and the last manual duration only with [time]; the start
    time only with [time] or [question]; the pause only with exactly
    [time pause]; the logging flag only with [logging]. *)
Theorem X5_command_frame
        (now : Time) (st st' : Main.State) (cmd : gostring)
        (out : list Effect) :
  Main.loopBody now st cmd = (Next st', out) ->
  (firstWord cmd <> lit "type" ->
   Main.Type_ (Main.question st') = Main.Type_ (Main.question st))
  /\ (firstWord cmd <> lit "type" -> firstWord cmd <> lit "question" ->
      Main.Question_ (Main.question st') = Main.Question_ (Main.question st))
  /\ (firstWord cmd <> lit "time" ->
      Main.TimeLeft (Main.question st') = Main.TimeLeft (Main.question st)
      /\ Main.CountUp (Main.question st') = Main.CountUp (Main.question st)
      /\ Main.lastTime st' = Main.lastTime st)
  /\ (firstWord cmd <> lit "time" -> firstWord cmd <> lit "question" ->
      Main.StartTime (Main.question st') = Main.StartTime (Main.question st))
  /\ (Fields (TrimSpace cmd) <> [lit "time"; lit "pause"] ->
      Main.pause st' = Main.pause st)
  /\ (firstWord cmd <> lit "logging" ->
      Main.loggingEnabled st' = Main.loggingEnabled st).
Proof.
  unfold Main.loopBody, firstWord.
  destruct (isEmpty (TrimSpace cmd));
    [intros H; injection H as <- _; repeat split |].
  unfold Main.exec.
  destruct (Fields (TrimSpace cmd)) as [| command args]; [discriminate |].
  cbn [hd].
  switch_cases args;
    intros H; try discriminate H; injection H as <- _;
    eqs_subst; repeat split; intros; try reflexivity; congruence.
Qed.

Lemma X5_command_frame_witness :
  Main.pause (Main.set_question (Main.initializeQuestion 0)
                (Main.with_StartTime
                   (Main.with_Question (Main.question (Main.initializeQuestion 0))
                                       (lit "a b")) 7))
  = Main.pause (Main.initializeQuestion 0).
Proof.
  refine (proj1 (proj2 (proj2 (proj2 (proj2
            (X5_command_frame 7 (Main.initializeQuestion 0) _
               (lit "question a   b")
               [Printf success "Question set to: %s\n" [ArgStr (lit "a b")];
                GoSendCurrentQuestion] _))))) _).
  - reflexivity.
  - discriminate.
Defined.

(** X6.  Only the [question] command makes the loop notify the other
    server: a command that spawns [sendCurrentQuestion] has [question] as
    its first word.  A change of the type, of the timer or of the pause is
    not sent, not even [type end], which rewrites the text. *)
Theorem X6_only_question_notifies
        (now : Time) (st : Main.State) (cmd : gostring) :
  In GoSendCurrentQuestion (snd (Main.loopBody now st cmd)) ->
  firstWord cmd = lit "question".
Proof.
  unfold Main.loopBody, firstWord.
  destruct (isEmpty (TrimSpace cmd)); [intros [] |].
  unfold Main.exec.
  destruct (Fields (TrimSpace cmd)) as [| command args]; [intros [] |].
  cbn [hd].
  switch_cases args; cbn [snd]; intros H; eqs_subst; try reflexivity;
    unfold Main.printHelp, helpLines, Main.statusTime in H;
    try (destruct (Main.CountUp (Main.question st)));
    simpl in H; intuition discriminate.
Qed.

Lemma X6_only_question_notifies_witness :
  firstWord (lit " question Pomoc na stole") = lit "question".
Proof.
  apply (X6_only_question_notifies 7 (Main.initializeQuestion 0)).
  vm_compute. right. left. reflexivity.
Defined.

Lemma act_valid_type (st st' : Main.State) (a : Main.Action) :
  validTypes (Main.Type_ (Main.question st)) = true ->
  Main.act st a = Next st' ->
  validTypes (Main.Type_ (Main.question st')) = true.
Proof.
  intros Hv. destruct a as [now cmd | now | now req]; simpl.
  - unfold Main.loopBody.
    destruct (isEmpty (TrimSpace cmd));
      [intros H; injection H as <-; exact Hv |].
    unfold Main.exec.
    destruct (Fields (TrimSpace cmd)) as [| command args]; [discriminate |].
    switch_cases args; cbn [fst];
      intros H; try discriminate H; injection H as <-;
      try exact Hv; simpl;
      repeat match goal with
        | H : negb _ = false |- _ => apply negb_false_iff in H
        end;
      eqs_subst; try assumption; reflexivity.
  - intros H. injection H as <-.
    unfold Main.getQuestion. destruct (Main.pause st); exact Hv.
  - intros H. injection H as <-. unfold Main.setQuestion.
    destruct req as [err | q]; [exact Hv |].
    destruct (Main.validateQuestion q) eqn:E; [exact Hv |].
    unfold Main.validateQuestion in E.
    destruct (Main.TimeLeft q <? 0); [discriminate |].
    destruct (validTypes (Main.Type_ q)) eqn:Ht; [| discriminate].
    simpl. destruct (eqs (Main.Type_ q) (lit "end")); exact Ht.
Qed.

(** X7.  The stored type stays one of the four: from a state whose type is
    valid, after any commands of the operator, GETs and POSTs, accepted or
    not, the type is valid; so it is in every state reached from the
    initial one. *)
Theorem X7_type_stays_valid :
  (forall (l : list Main.Action) (st st' : Main.State),
      validTypes (Main.Type_ (Main.question st)) = true ->
      Main.run st l = Next st' ->
      validTypes (Main.Type_ (Main.question st')) = true)
  /\ (forall (now : Time) (l : list Main.Action) (st' : Main.State),
         Main.run (Main.initializeQuestion now) l = Next st' ->
         validTypes (Main.Type_ (Main.question st')) = true).
Proof.
  assert (H : forall l st st',
             validTypes (Main.Type_ (Main.question st)) = true ->
             Main.run st l = Next st' ->
             validTypes (Main.Type_ (Main.question st')) = true).
  { induction l as [| a l IH]; intros st st' Hv; simpl.
    - intros E. injection E as <-. exact Hv.
    - destruct (Main.act st a) as [st1 | |] eqn:Ea; try discriminate.
      apply IH. exact (act_valid_type _ _ _ Hv Ea). }
  split; [exact H |].
  intros now l st'. apply H. reflexivity.
Qed.

Lemma X7_type_stays_valid_witness :
  validTypes (Main.Type_ (Main.question
    (Main.set_question (Main.initializeQuestion 0)
       (Main.with_Question
          (Main.with_Type (Main.question (Main.initializeQuestion 0)) (lit "end"))
          (lit "END"))))) = true.
Proof.
  refine (proj2 X7_type_stays_valid 0
            [Main.ACmd 1 (lit "type bogus"); Main.ACmd 2 (lit "type end")] _ _).
  reflexivity.
Defined.

Lemma exec_time_pause (now : Time) (st : Main.State) (cmd : gostring) :
  Fields cmd = [lit "time"; lit "pause"] ->
  Main.exec now st cmd
  = if negb (Main.pause st)
    then (Next (Main.set_pause st true), [Println success "Question paused"])
    else (Next (Main.set_question (Main.set_pause st false)
                  (Main.with_StartTime (Main.question st) now)),
          [Println success "Question unpaused"]).
Proof.
  intros Hf. unfold Main.exec. rewrite Hf. eval_eqs.
  cbn [List.length Nat.eqb negb nth]. eval_eqs.
  destruct (Main.pause st); reflexivity.
Qed.

Lemma run_gets (st : Main.State) (nows : list Time) :
  Main.run st (map Main.AGet nows) = Next st.
Proof.
  induction nows as [| t nows IH]; [reflexivity |].
  simpl. replace (fst (Main.getQuestion t st)) with st; [exact IH |].
  unfold Main.getQuestion. destruct (Main.pause st); reflexivity.
Qed.

(** X8.  Pausing and resuming in [main.go]: after [time pause], any number
    of GETs and [time pause] again, the state is the one before with the
    start time set to the instant of the resume.  The time that had run
    before the pause is forgotten: a countdown resumed at [t2] and read
    [d] nanoseconds later, [d] within the budget, has the whole stored
    budget less [d]. *)
Theorem X8_pause_resume
        (st : Main.State) (t1 t2 : Time) (c1 c2 : gostring)
        (gets : list Time) :
  Fields (TrimSpace c1) = [lit "time"; lit "pause"] ->
  Fields (TrimSpace c2) = [lit "time"; lit "pause"] ->
  Main.pause st = false ->
  Main.run st (Main.ACmd t1 c1 :: map Main.AGet gets ++ [Main.ACmd t2 c2])
  = Next (Main.set_question st (Main.with_StartTime (Main.question st) t2))
  /\ (forall d,
         Main.CountUp (Main.question st) = false ->
         0 <= d <= Main.TimeLeft (Main.question st) ->
         Main.TimeLeft (Main.question st) <= maxInt64 ->
         snd (Main.getQuestion (t2 + d)
                (Main.set_question st
                   (Main.with_StartTime (Main.question st) t2)))
         = Main.mkResponse StatusOK (Main.JSONQuestion
             (Main.with_TimeLeft (Main.with_StartTime (Main.question st) t2)
                (Main.TimeLeft (Main.question st) - d)))).
Proof.
  intros H1 H2 Hp. split.
  - cbn [Main.run Main.act].
    rewrite (loopBody_exec _ _ _ _ _ H1), (exec_time_pause _ _ _ H1), Hp.
    cbn [negb fst]. rewrite run_app, run_gets.
    cbn [Main.run Main.act].
    rewrite (loopBody_exec _ _ _ _ _ H2), (exec_time_pause _ _ _ H2).
    destruct st as [q p l n]. simpl in Hp. subst p. reflexivity.
  - intros d Hc Hd Hb.
    rewrite getQuestion_countdown by assumption. cbv zeta.
    cbn [Main.question Main.set_question Main.with_StartTime Main.StartTime
         Main.TimeLeft].
    rewrite Since_at_end by lia.
    rewrite wrap64_id by (unfold int64, minInt64, maxInt64 in *; lia).
    destruct (Main.TimeLeft (Main.question st) - d <? 0) eqn:E;
      [apply Z.ltb_lt in E; lia | reflexivity].
Qed.

Lemma X8_pause_resume_witness :
  Main.run (Main.initializeQuestion 0)
    (Main.ACmd 10 (lit "time pause")
     :: map Main.AGet [11; 12] ++ [Main.ACmd 20 (lit " time  pause")])
  = Next (Main.set_question (Main.initializeQuestion 0)
            (Main.with_StartTime (Main.question (Main.initializeQuestion 0)) 20)).
Proof.
  exact (proj1 (X8_pause_resume (Main.initializeQuestion 0) 10 20
                  (lit "time pause") (lit " time  pause") [11; 12]
                  eq_refl eq_refl eq_refl)).
Defined.

Lemma exec000_time_pause (now : Time) (st : Part000.State) (cmd : gostring) :
  Fields cmd = [lit "time"; lit "pause"] ->
  Part000.exec now st cmd
  = if negb (Part000.Pause st)
    then (Next (Part000.set_Pause st true), [Println success "Question paused"])
    else (Next (Part000.set_question (Part000.set_Pause st false)
                  (Part000.with_TimeLeft
                     (Part000.with_StartTime (Part000.question st) now)
                     (seconds (Part000.lastTime st)))),
          [Println success "Question unpaused"]).
Proof.
  intros Hf. unfold Part000.exec. rewrite Hf. eval_eqs.
  cbn [List.length Nat.eqb negb nth]. eval_eqs.
  destruct (Part000.Pause st); reflexivity.
Qed.

(** X9.  Pausing and resuming in the simpler variant: [time pause] sets the
    pause and nothing else; [time pause] again clears it, sets the start
    time to the instant of the resume and replaces the budget by the last
    manual duration, whatever the budget was. *)
Theorem X9_pause_resume_simple
        (st0 : Part000.State) (t1 t2 : Time) (c1 c2 : gostring) :
  Fields (TrimSpace c1) = [lit "time"; lit "pause"] ->
  Fields (TrimSpace c2) = [lit "time"; lit "pause"] ->
  Part000.Pause st0 = false ->
  Part000.loopBody t1 st0 c1
  = (Next (Part000.set_Pause st0 true), [Println success "Question paused"])
  /\ Part000.loopBody t2 (Part000.set_Pause st0 true) c2
     = (Next (Part000.set_question st0
                (Part000.mkQuestion
                   (Part000.Question_ (Part000.question st0))
                   (seconds (Part000.lastTime st0))
                   (Part000.Type_ (Part000.question st0)) t2)),
        [Println success "Question unpaused"]).
Proof.
  intros H1 H2 Hp. split.
  - rewrite (loopBody000_exec _ _ _ _ _ H1), (exec000_time_pause _ _ _ H1), Hp.
    reflexivity.
  - rewrite (loopBody000_exec _ _ _ _ _ H2), (exec000_time_pause _ _ _ H2).
    destruct st0 as [q p l n]. simpl in Hp. subst p. reflexivity.
Qed.

Lemma X9_pause_resume_simple_witness :
  Part000.loopBody 20 (Part000.set_Pause (Part000.initial 0) true)
    (lit "time pause")
  = (Next (Part000.set_question (Part000.initial 0)
             (Part000.mkQuestion (lit "Default question") (seconds 0)
                                 (lit "pomoc") 20)),
     [Println success "Question unpaused"]).
Proof.
  exact (proj2 (X9_pause_resume_simple (Part000.initial 0) 10 20
                  (lit "time pause") (lit "time pause")
                  eq_refl eq_refl eq_refl)).
Defined.

(** X10.  When the program is not paused, the [status] command and
    [GET /get-question] agree on the timer at the same instant: the
    duration [status] prints, the elapsed time in count-up mode and the
    time left otherwise, is the [time_left] of the answer. *)
Theorem X10_status_agrees_with_get
        (now : Time) (st : Main.State) (cmd : gostring) (rest : list gostring) :
  Main.pause st = false ->
  Fields (TrimSpace cmd) = lit "status" :: rest ->
  exists q',
    snd (Main.getQuestion now st)
    = Main.mkResponse StatusOK (Main.JSONQuestion q')
    /\ In (Printf info
             (if Main.CountUp (Main.question st)
              then "Elapsed time: %d seconds\n" else "Time left: %d seconds\n")
             [ArgSeconds (Main.TimeLeft q')])
          (snd (Main.loopBody now st cmd)).
Proof.
  intros Hp Hf.
  rewrite (loopBody_exec _ _ _ _ _ Hf), (exec_status _ _ _ _ Hf).
  unfold Main.getQuestion, Main.statusTime. rewrite Hp.
  destruct (Main.CountUp (Main.question st)).
  - eexists. split; [reflexivity |]. simpl. auto.
  - cbn [Main.with_TimeLeft Main.TimeLeft].
    destruct (wrap64 _ <? 0); eexists; (split; [reflexivity |]); simpl; auto.
Qed.

Lemma X10_status_agrees_with_get_witness :
  exists q',
    snd (Main.getQuestion 12 (Main.initializeQuestion 0))
    = Main.mkResponse StatusOK (Main.JSONQuestion q')
    /\ In (Printf info "Time left: %d seconds\n" [ArgSeconds (Main.TimeLeft q')])
          (snd (Main.loopBody 12 (Main.initializeQuestion 0) (lit "status"))).
Proof.
  exact (X10_status_agrees_with_get 12 (Main.initializeQuestion 0)
           (lit "status") [] eq_refl eq_refl).
Defined.

(* ------------------------------------------------------------------ *)

Lemma isWord_spec (w : gostring) :
  isWord w = true <-> w <> [] /\ forall c, In c w -> IsSpace c = false.
Proof.
  unfold isWord. rewrite andb_true_iff, forallb_forall. split.
  - intros [Hn Hs]. split.
    + destruct w; [discriminate | discriminate].
    + intros c Hc. apply negb_true_iff, Hs, Hc.
  - intros [Hn Hs]. split.
    + destruct w; [congruence | reflexivity].
    + intros c Hc. apply negb_true_iff, Hs, Hc.
Qed.

(** The fields of a string are words. *)
Lemma FieldsFrom_words (s cur : gostring) :
  (forall c, In c cur -> IsSpace c = false) ->
  Forall (fun w => isWord w = true) (FieldsFrom cur s).
Proof.
  revert cur. induction s as [| c s IH]; intros cur Hcur; simpl.
  - destruct cur as [| x cur]; simpl; [constructor |].
    constructor; [| constructor]. apply isWord_spec. split.
    + intros E. apply (f_equal (@List.length rune)) in E.
      rewrite length_app in E. simpl in E. lia.
    + intros y Hy. apply Hcur, in_rev. exact Hy.
  - destruct (IsSpace c) eqn:E.
    + destruct cur as [| x cur]; simpl.
      * apply IH. intros y [].
      * constructor; [| apply IH; intros y []].
        apply isWord_spec. split.
        -- intros E'. apply (f_equal (@List.length rune)) in E'.
           rewrite length_app in E'. simpl in E'. lia.
        -- intros y Hy. apply Hcur, in_rev. exact Hy.
    + apply IH. intros y [<- | Hy]; [exact E | apply Hcur, Hy].
Qed.

Lemma Fields_words (s : gostring) :
  Forall (fun w => isWord w = true) (Fields s).
Proof. apply FieldsFrom_words. intros c []. Qed.

Lemma FieldsFrom_app (w s cur : gostring) :
  (forall c, In c w -> IsSpace c = false) ->
  FieldsFrom cur (w ++ s) = FieldsFrom (rev w ++ cur) s.
Proof.
  revert cur. induction w as [| c w IH]; intros cur Hw; [reflexivity |].
  simpl. rewrite (Hw c (or_introl eq_refl)).
  rewrite IH by (intros y Hy; apply Hw; right; exact Hy).
  rewrite <- app_assoc. reflexivity.
Qed.

(** Joining words with one space and taking the fields gives the words
    back. *)
Lemma Fields_Join (l : list gostring) :
  Forall (fun w => isWord w = true) l -> Fields (Join l (lit " ")) = l.
Proof.
  induction 1 as [| e rest He Hrest IH]; [reflexivity |].
  apply isWord_spec in He. destruct He as [Hn Hs].
  assert (Hr : isEmpty (rev e ++ []) = false).
  { destruct e as [| x e]; [congruence |]. simpl.
    destruct (rev e); reflexivity. }
  unfold Fields in *. destruct rest as [| e' rest'].
  - simpl. rewrite <- (app_nil_r e) at 1.
    rewrite (FieldsFrom_app _ _ _ Hs). simpl. rewrite Hr.
    rewrite app_nil_r, rev_involutive. reflexivity.
  - change (Join (e :: e' :: rest') (lit " "))
      with (e ++ 32 :: Join (e' :: rest') (lit " ")).
    rewrite (FieldsFrom_app _ _ _ Hs).
    cbn [FieldsFrom]. change (IsSpace 32) with true. cbv iota.
    rewrite Hr, IH, app_nil_r, rev_involutive. reflexivity.
Qed.

(** X11.  [question <words>] stores the words joined by single spaces:
    the fields of the stored text are the words typed, however they were
    spaced; the start time is the clock's reading, the rest of the state
    is kept, the text is printed and one notification is spawned (none in
    the simpler variant). *)
Theorem X11_question_command :
  (forall (now : Time) (st : Main.State) (cmd w : gostring) ws,
      Fields (TrimSpace cmd) = lit "question" :: w :: ws ->
      Main.loopBody now st cmd
      = (Next (Main.set_question st
                 (Main.with_StartTime
                    (Main.with_Question (Main.question st)
                                        (Join (w :: ws) (lit " "))) now)),
         [Printf success "Question set to: %s\n"
                 [ArgStr (Join (w :: ws) (lit " "))];
          GoSendCurrentQuestion])
      /\ Fields (Join (w :: ws) (lit " ")) = w :: ws)
  /\ (forall (now : Time) (st0 : Part000.State) (cmd w : gostring) ws,
         Fields (TrimSpace cmd) = lit "question" :: w :: ws ->
         Part000.loopBody now st0 cmd
         = (Next (Part000.set_question st0
                    (Part000.with_StartTime
                       (Part000.with_Question (Part000.question st0)
                                              (Join (w :: ws) (lit " "))) now)),
            [Printf success "Question set to: %s\n"
                    [ArgStr (Join (w :: ws) (lit " "))]])).
Proof.
  split.
  - intros now st cmd w ws Hf. split.
    + rewrite (loopBody_exec _ _ _ _ _ Hf). unfold Main.exec. rewrite Hf.
      eval_eqs. reflexivity.
    + apply Fields_Join.
      pose proof (Fields_words (TrimSpace cmd)) as Hw. rewrite Hf in Hw.
      exact (Forall_inv_tail Hw).
  - intros now st0 cmd w ws Hf.
    rewrite (loopBody000_exec _ _ _ _ _ Hf). unfold Part000.exec. rewrite Hf.
    eval_eqs. reflexivity.
Qed.

Lemma X11_question_command_witness :
  Fields (Join [lit "Pomoc"; lit "na"; lit "stole"] (lit " "))
  = [lit "Pomoc"; lit "na"; lit "stole"].
Proof.
  refine (proj2 (proj1 X11_question_command 7 (Main.initializeQuestion 0)
                   (lit "  question  Pomoc   na stole ") (lit "Pomoc")
                   [lit "na"; lit "stole"] _)).
  reflexivity.
Defined.

(* ------------------------------------------------------------------ *)

Lemma Split_sep_app (sep : rune) (a b : gostring) :
  Split (a ++ sep :: b) sep = Split a sep ++ Split b sep.
Proof.
  induction a as [| c a IH]; simpl.
  - rewrite Z.eqb_refl. reflexivity.
  - destruct (c =? sep); rewrite IH; [reflexivity |].
    pose proof (Split_not_nil sep a) as Hn.
    destruct (Split a sep); [congruence | reflexivity].
Qed.


Lemma indexed_app {A : Type} (l1 l2 : list A) (n : nat) :
  indexed n (l1 ++ l2) = indexed n l1 ++ indexed (n + List.length l1) l2.
Proof.
  revert n. induction l1 as [| x l1 IH]; intros n; simpl.
  - rewrite Nat.add_0_r. reflexivity.
  - rewrite IH, Nat.add_succ_r. reflexivity.
Qed.

Lemma specRun_app (clock : nat -> Time) (l1 l2 : list (nat * gostring))
      (st : Main.State) :
  specRun clock (l1 ++ l2) st
  = match specRun clock l1 st with
    | (Next st', out) =>
        let (fl, out') := specRun clock l2 st' in (fl, out ++ out')
    | r => r
    end.
Proof.
  revert st. induction l1 as [| [i cmd] l1 IH]; intros st.
  - simpl. destruct (specRun clock l2 st). reflexivity.
  - cbn [app specRun].
    destruct (Main.exec (clock i) st cmd) as [[st1 | |] out]; try reflexivity.
    rewrite IH.
    destruct (specRun clock l1 st1) as [[st2 | |] out1]; try reflexivity.
    destruct (specRun clock l2 st2) as [fl out2].
    rewrite app_assoc. reflexivity.
Qed.

Lemma specRun_shift (clock : nat -> Time) (k : nat) (l : list gostring) :
  forall n st,
    specRun clock
      (filter (fun p => negb (isEmpty (snd p))) (indexed (n + k) l)) st
    = specRun (fun i => clock (i + k)%nat)
        (filter (fun p => negb (isEmpty (snd p))) (indexed n l)) st.
Proof.
  induction l as [| x l IH]; intros n st; [reflexivity |].
  cbn [indexed filter snd].
  change (S (n + k)) with (S n + k)%nat.
  destruct (negb (isEmpty x)); [| apply IH].
  cbn [specRun].
  destruct (Main.exec (clock (n + k)%nat) st x) as [[st1 | |] out];
    try reflexivity.
  rewrite IH. reflexivity.
Qed.

(** X12.  The semicolon is sequencing: a line [a;b] does what the line [a]
    does and then, unless [a] has ended the process, what the line [b]
    does in the state [a] leaves, the clock read on from where [a]
    stopped; the output is the one of [a] followed by the one of [b]. *)
Theorem X12_semicolon_sequences
        (clock : nat -> Time) (st : Main.State) (a b : gostring) :
  Main.startCLI_line clock st (a ++ 59 :: b)
  = match Main.startCLI_line clock st a with
    | (Next st', out) =>
        let (fl, out') :=
          Main.startCLI_line
            (fun i => clock (i + List.length (Split a 59%Z))%nat) st' b in
        (fl, out ++ out')
    | r => r
    end.
Proof.
  rewrite !startCLI_line_specRun. unfold specCommands.
  rewrite Split_sep_app, map_app, indexed_app, filter_app, specRun_app.
  rewrite length_map.
  destruct (specRun clock _ st) as [[st1 | |] out]; try reflexivity.
  rewrite (specRun_shift clock (List.length (Split a 59))
             (map TrimSpace (Split b 59)) 0 st1).
  rewrite startCLI_line_specRun. reflexivity.
Qed.

Lemma commandsLoop_run (clock : nat -> Time) (commands : list gostring) :
  forall i st,
    fst (Main.commandsLoop clock i commands st)
    = Main.run st (map (fun p => Main.ACmd (clock (fst p)) (snd p))
                       (indexed i commands)).
Proof.
  induction commands as [| cmd rest IH]; intros i st; [reflexivity |].
  cbn [Main.commandsLoop indexed map Main.run Main.act fst snd].
  destruct (Main.loopBody (clock i) st cmd) as [[st1 | |] out];
    cbn [fst]; try reflexivity.
  rewrite <- IH. destruct (Main.commandsLoop clock (S i) rest st1).
  reflexivity.
Qed.

(** X13.  A line is the sequence of its pieces as events: where the loop
    leaves the state after a line, or that it has ended the process, is
    what running the pieces one by one gives, each as a command at the
    clock reading of its pass. *)
Theorem X13_line_as_events
        (clock : nat -> Time) (st : Main.State) (line : gostring) :
  fst (Main.startCLI_line clock st line)
  = Main.run st (lineActions clock line).
Proof.
  unfold Main.startCLI_line, lineActions.
  destruct (isEmpty (TrimSpace line)) eqn:He.
  - destruct (TrimSpace line); [reflexivity | discriminate].
  - apply commandsLoop_run.
Qed.



(* ------------------------------------------------------------------ *)

(** X15.  The timer from command to display: after [time <n>] at the
    instant [now], [n] within the seconds a [Duration] holds, and with the
    program not paused, a GET [d] nanoseconds later answers the text and
    the type as stored with [n] seconds less [d] left, as long as [d] is
    within the [n] seconds, and [time_left = 0] with the type [end] once
    [d] is beyond them. *)
Theorem X15_time_then_read
        (now : Time) (st : Main.State) (cmd a : gostring) (n d : Z) :
  Fields (TrimSpace cmd) = [lit "time"; a] -> Atoi a = Some n ->
  0 <= n <= maxSeconds -> Main.pause st = false -> 0 <= d <= maxInt64 ->
  exists st' out,
    Main.loopBody now st cmd = (Next st', out)
    /\ snd (Main.getQuestion (now + d) st')
       = Main.mkResponse StatusOK (Main.JSONQuestion
           (if n * Second <? d
            then Main.mkQuestion (Main.Question_ (Main.question st)) 0
                                 (lit "end") now false
            else Main.mkQuestion (Main.Question_ (Main.question st))
                                 (n * Second - d)
                                 (Main.Type_ (Main.question st)) now false)).
Proof.
  intros Hf Ha Hn Hp Hd.
  rewrite (loopBody_exec _ _ _ _ _ Hf),
    (exec_time_number _ _ _ _ _ Hf Ha (proj1 Hn)).
  do 2 eexists. split; [reflexivity |].
  rewrite getQuestion_countdown by (simpl; auto). cbv zeta.
  cbn [Main.question Main.TimeLeft Main.StartTime].
  rewrite (seconds_exact _ Hn), (Since_at_end _ _ Hd).
  assert (Hs : 0 <= n * Second <= maxInt64)
    by (unfold maxSeconds, Second, maxInt64 in *; lia).
  rewrite wrap64_id by (unfold int64, minInt64, maxInt64 in *; lia).
  destruct (n * Second <? d) eqn:E1; destruct (n * Second - d <? 0) eqn:E2;
    try reflexivity;
    [apply Z.ltb_lt in E1; apply Z.ltb_ge in E2
    | apply Z.ltb_ge in E1; apply Z.ltb_lt in E2]; lia.
Qed.

Lemma X15_time_then_read_witness :
  exists st' out,
    Main.loopBody 100 (Main.initializeQuestion 0) (lit "time 30") = (Next st', out)
    /\ snd (Main.getQuestion (100 + 31 * Second) st')
       = Main.mkResponse StatusOK (Main.JSONQuestion
           (if 30 * Second <? 31 * Second
            then Main.mkQuestion (lit "Default question") 0 (lit "end") 100 false
            else Main.mkQuestion (lit "Default question")
                                 (30 * Second - 31 * Second)
                                 (lit "pomoc") 100 false)).
Proof.
  refine (X15_time_then_read 100 (Main.initializeQuestion 0)
            (lit "time 30") (lit "30") 30 (31 * Second) _ _ _ _ _).
  - reflexivity.
  - reflexivity.
  - unfold maxSeconds. lia.
  - reflexivity.
  - unfold Second, maxInt64. lia.
Defined.

(** X16.  [time countUp] at the instant [now] keeps the text, the type,
    the budget and the last manual duration, and starts counting from
    zero: with the program not paused, a GET [d] nanoseconds later
    answers [time_left = d]. *)
Theorem X16_count_up_then_read
        (now : Time) (st : Main.State) (cmd : gostring) (d : Z) :
  Fields (TrimSpace cmd) = [lit "time"; lit "countUp"] ->
  Main.pause st = false -> 0 <= d <= maxInt64 ->
  Main.loopBody now st cmd
  = (Next (Main.set_question st
             (Main.with_CountUp (Main.with_StartTime (Main.question st) now)
                                true)),
     [Println success "Counting up"])
  /\ snd (Main.getQuestion (now + d)
            (Main.set_question st
               (Main.with_CountUp (Main.with_StartTime (Main.question st) now)
                                  true)))
     = Main.mkResponse StatusOK (Main.JSONQuestion
         (Main.mkQuestion (Main.Question_ (Main.question st)) d
                          (Main.Type_ (Main.question st)) now true)).
Proof.
  intros Hf Hp Hd. split.
  - rewrite (loopBody_exec _ _ _ _ _ Hf). unfold Main.exec. rewrite Hf.
    eval_eqs. cbn [List.length Nat.eqb negb nth]. eval_eqs. reflexivity.
  - unfold Main.getQuestion. cbn [Main.pause Main.set_question]. rewrite Hp.
    cbn [Main.question Main.CountUp Main.with_CountUp Main.with_StartTime
         Main.StartTime Main.with_TimeLeft Main.Question_ Main.Type_ snd].
    rewrite (Since_at_end _ _ Hd). reflexivity.
Qed.

Lemma X16_count_up_then_read_witness :
  snd (Main.getQuestion (100 + 5)
         (Main.set_question (Main.initializeQuestion 0)
            (Main.with_CountUp
               (Main.with_StartTime (Main.question (Main.initializeQuestion 0)) 100)
               true)))
  = Main.mkResponse StatusOK (Main.JSONQuestion
      (Main.mkQuestion (lit "Default question") 5 (lit "pomoc") 100 true)).
Proof.
  refine (proj2 (X16_count_up_then_read 100 (Main.initializeQuestion 0)
                   (lit "time countUp") 5 _ _ _)).
  - reflexivity.
  - reflexivity.
  - unfold maxInt64. lia.
Defined.

(* ------------------------------------------------------------------ *)

Lemma act_budget (st st' : Main.State) (a : Main.Action) :
  modest a ->
  0 <= Main.TimeLeft (Main.question st) ->
  0 <= Main.lastTime st <= maxSeconds ->
  Main.act st a = Next st' ->
  0 <= Main.TimeLeft (Main.question st')
  /\ 0 <= Main.lastTime st' <= maxSeconds.
Proof.
  intros Hm Ht Hl. destruct a as [now cmd | now | now req]; simpl in *.
  - unfold Main.loopBody.
    destruct (isEmpty (TrimSpace cmd));
      [intros H; injection H as <-; auto |].
    unfold Main.exec.
    destruct (Fields (TrimSpace cmd)) as [| command args]; [discriminate |].
    switch_cases args; cbn [fst];
      intros H; try discriminate H; injection H as <-; auto; simpl.
    + rewrite (seconds_exact _ Hl). unfold Second. split; [nia | lia].
    + match goal with H : (_ <? 0) = false |- _ => apply Z.ltb_ge in H end.
      rewrite seconds_exact by lia. unfold Second. split; [nia | lia].
  - intros H. injection H as <-.
    unfold Main.getQuestion. destruct (Main.pause st); auto.
  - intros H. injection H as <-. unfold Main.setQuestion.
    destruct req as [err | q]; [auto |].
    destruct (Main.validateQuestion q) eqn:E; [auto |].
    unfold Main.validateQuestion in E.
    destruct (Main.TimeLeft q <? 0) eqn:Eq; [discriminate |].
    apply Z.ltb_ge in Eq. simpl.
    destruct (eqs (Main.Type_ q) (lit "end")); simpl; auto.
Qed.

(** X17.  The stored budget is never negative as long as no command asks
    for more seconds than a [Duration] holds: from a state with a budget
    that is not negative and a last manual duration within these seconds,
    and so from the initial state, any such commands, GETs and POSTs lead
    to a state with a budget that is not negative and a last manual
    duration within these seconds. *)
Theorem X17_budget_not_negative :
  (forall (l : list Main.Action) (st st' : Main.State),
      Forall modest l ->
      0 <= Main.TimeLeft (Main.question st) ->
      0 <= Main.lastTime st <= maxSeconds ->
      Main.run st l = Next st' ->
      0 <= Main.TimeLeft (Main.question st')
      /\ 0 <= Main.lastTime st' <= maxSeconds)
  /\ (forall (now : Time) (l : list Main.Action) (st' : Main.State),
         Forall modest l ->
         Main.run (Main.initializeQuestion now) l = Next st' ->
         0 <= Main.TimeLeft (Main.question st')
         /\ 0 <= Main.lastTime st' <= maxSeconds).
Proof.
  assert (H : forall l st st',
             Forall modest l ->
             0 <= Main.TimeLeft (Main.question st) ->
             0 <= Main.lastTime st <= maxSeconds ->
             Main.run st l = Next st' ->
             0 <= Main.TimeLeft (Main.question st')
             /\ 0 <= Main.lastTime st' <= maxSeconds).
  { induction l as [| a l IH]; intros st st' Hm Ht Hl; simpl.
    - intros E. injection E as <-. auto.
    - destruct (Main.act st a) as [st1 | |] eqn:Ea; try discriminate.
      destruct (act_budget _ _ _ (Forall_inv Hm) Ht Hl Ea) as [Ht1 Hl1].
      apply IH; [exact (Forall_inv_tail Hm) | exact Ht1 | exact Hl1]. }
  split; [exact H |].
  intros now l st' Hm. apply H; [exact Hm | |]; simpl;
    unfold Second, maxSeconds; lia.
Qed.

Lemma X17_budget_not_negative_witness :
  0 <= Main.TimeLeft (Main.question
         (Main.mkState
            (Main.mkQuestion (lit "Default question") (seconds 45)
                             (lit "pomoc") 1 false)
            false false 45))
  /\ 0 <= Main.lastTime
            (Main.mkState
               (Main.mkQuestion (lit "Default question") (seconds 45)
                                (lit "pomoc") 1 false)
               false false 45) <= maxSeconds.
Proof.
  refine (proj2 X17_budget_not_negative 0 [Main.ACmd 1 (lit "time 45")] _ _ _).
  - constructor; [| constructor]. simpl. unfold maxSeconds. lia.
  - reflexivity.
Defined.

Lemma sessionActions_run (clock : nat -> nat -> Time) (lines : list gostring) :
  forall n st,
    fst (startCLI clock n (map ReadLine lines) st)
    = Main.run st (sessionActions clock n lines).
Proof.
  assert (Hline : forall c st line,
             fst (Main.startCLI_line c st line)
             = Main.run st (lineActions c line)).
  { intros c st line. unfold Main.startCLI_line, lineActions.
    destruct (isEmpty (TrimSpace line)) eqn:He.
    - destruct (TrimSpace line); [reflexivity | discriminate].
    - apply commandsLoop_run. }
  induction lines as [| line rest IH]; intros n st; [reflexivity |].
  cbn [map startCLI sessionActions]. rewrite run_app, <- Hline.
  destruct (Main.startCLI_line (clock n) st line) as [[st1 | |] out];
    cbn [fst]; try reflexivity.
  rewrite <- IH. destruct (startCLI clock (S n) (map ReadLine rest) st1).
  reflexivity.
Qed.

(** X18.  A session is the sequence of the pieces of its lines: where the
    outer loop of [startCLI] stands after the lines read, or that a
    command has ended the process, is what running all the pieces of all
    the lines as events gives.  What is read after the end of the input,
    or after an interrupt on an empty line, is not looked at; a line that
    comes with an interrupt is not run, and an error of the reader is
    printed and the loop goes on. *)
Theorem X18_session
        (clock : nat -> nat -> Time) (n : nat) (st : Main.State) :
  (forall lines,
      fst (startCLI clock n (map ReadLine lines) st)
      = Main.run st (sessionActions clock n lines))
  /\ (forall rest, startCLI clock n (ReadEOF :: rest) st = (Next st, []))
  /\ (forall rest,
         startCLI clock n (ReadInterrupt [] :: rest) st = (Next st, []))
  /\ (forall c line rest,
         startCLI clock n (ReadInterrupt (c :: line) :: rest) st
         = startCLI clock (S n) rest st)
  /\ (forall err rest,
         fst (startCLI clock n (ReadError err :: rest) st)
         = fst (startCLI clock (S n) rest st)).
Proof.
  repeat apply conj; try reflexivity.
  - intros lines. apply sessionActions_run.
  - intros err rest. cbn [startCLI].
    destruct (startCLI clock (S n) rest st). reflexivity.
Qed.
